(** * Portfolio P&L analytics: a shallow embedding of
      [modules/pnl_calculator.py] and [modules/country_fetcher.py].

    Conventions of the embedding.

    - Python [float] values are rationals ([Q]) with exact arithmetic:
      rounding and overflow are not modelled, and equality of computed values
      is [Qeq] ([==]).  The one place of the source where a division is not
      guarded by a test on the denominator (the per-region [pnl_percentage],
      a pandas Series division) produces a [float64], which adds the IEEE
      values [NaN] and [±inf] to the rationals; the sign of a zero is not
      modelled.
    - Python [dict] arguments are [gmap]s with [string] keys; an optional
      value ([Optional[str]]) is an [option].
    - A [try ... except Exception] block is a computation in the error monad
      [exn + _] followed by its handler.
    - Strings are byte strings (UTF-8); [str.upper] and [str.strip] are
      modelled on the ASCII range, which covers every country name the
      classifier knows. *)

From Stdlib Require Import QArith Qabs Lqa Lia List Ascii String Bool.
From Stdlib Require Import Sorted OrderedTypeEx.
From stdpp Require Import gmap strings.
Import ListNotations.

Local Open Scope string_scope.

(** ** Python built-ins used by the source *)

Module Py.

(** [sub in s] on strings: [sub] occurs somewhere in [s]. *)
Fixpoint contains (sub s : string) : bool :=
  String.prefix sub s ||
  match s with
  | EmptyString => false
  | String _ s' => contains sub s'
  end.

(** [str.upper], on ASCII letters: the function of the source on a string
    that satisfies [isascii]. *)
Definition upper_char (c : ascii) : ascii :=
  let n := nat_of_ascii c in
  if (97 <=? n)%nat && (n <=? 122)%nat then ascii_of_nat (n - 32) else c.

Fixpoint upper (s : string) : string :=
  match s with
  | EmptyString => EmptyString
  | String c s' => String (upper_char c) (upper s')
  end.

(** [str.isspace] on the ASCII range: TAB, LF, VT, FF, CR, FS, GS, RS, US
    and the space. *)
Definition isspace (c : ascii) : bool :=
  let n := nat_of_ascii c in
  ((9 <=? n)%nat && (n <=? 13)%nat) || ((28 <=? n)%nat && (n <=? 32)%nat).

Fixpoint lstrip (s : string) : string :=
  match s with
  | EmptyString => EmptyString
  | String c s' => if isspace c then lstrip s' else s
  end.

(** Drops trailing white space; [rstrip s] is empty when [s] is blank. *)
Fixpoint rstrip (s : string) : string :=
  match s with
  | EmptyString => EmptyString
  | String c s' =>
      match rstrip s' with
      | EmptyString => if isspace c then EmptyString else String c EmptyString
      | r => String c r
      end
  end.

Definition strip (s : string) : string := rstrip (lstrip s).

(** [x in [..]] on a list of strings. *)
Definition in_list (x : string) (l : list string) : bool :=
  existsb (String.eqb x) l.

(** Truth value of a string: non-empty. *)
Definition truthy_str (s : string) : bool :=
  match s with EmptyString => false | _ => true end.

(** [str.isascii]: every character is below 128. On such a string
    [str.upper] and [str.strip] are [upper] and [strip]. *)
Fixpoint isascii (s : string) : bool :=
  match s with
  | EmptyString => true
  | String c s' => (nat_of_ascii c <? 128)%nat && isascii s'
  end.

(** Comparison of floats, [x > y]. *)
Definition gt (x y : Q) : bool := negb (Qle_bool x y).

(** An [int] used in a float expression. *)
Definition float_of_int (n : Z) : Q := inject_Z n.

(** Truth value of a dict: non-empty. *)
Definition truthy_dict {V} (d : gmap string V) : bool :=
  negb (Nat.eqb (size d) 0).

(** Exceptions the modelled code can raise inside its [try] blocks. *)
Inductive exn : Type :=
| KeyError (key : string)
| ValueError.

Definition result (A : Type) : Type := (exn + A)%type.

Definition ret {A} (a : A) : result A := inr a.
Definition raise {A} (e : exn) : result A := inl e.
Definition bind {A B} (m : result A) (k : A -> result B) : result B :=
  match m with
  | inl e => inl e
  | inr a => k a
  end.

(** [try: body  except Exception: handler]. *)
Definition try_except {A} (body : result A) (handler : exn -> A) : A :=
  match body with
  | inl e => handler e
  | inr a => a
  end.

End Py.

Notation "x <- m ;; k" := (Py.bind m (fun x => k))
  (at level 100, m at next level, right associativity).

(** ** [modules/country_fetcher.py] *)

Module CountryFetcher.

Definition european_countries : list string :=
  [ "GERMANY"; "FRANCE"; "UNITED KINGDOM"; "UK"; "GREAT BRITAIN";
    "ITALY"; "SPAIN"; "NETHERLANDS"; "SWITZERLAND"; "SWEDEN";
    "NORWAY"; "DENMARK"; "FINLAND"; "BELGIUM"; "AUSTRIA";
    "IRELAND"; "PORTUGAL"; "LUXEMBOURG"; "GREECE"; "POLAND";
    "CZECH REPUBLIC"; "HUNGARY"; "SLOVAKIA"; "SLOVENIA";
    "CROATIA"; "ROMANIA"; "BULGARIA"; "ESTONIA"; "LATVIA";
    "LITHUANIA"; "MALTA"; "CYPRUS" ].

Definition asia_pacific_countries : list string :=
  [ "CHINA"; "SOUTH KOREA"; "KOREA"; "TAIWAN"; "HONG KONG";
    "SINGAPORE"; "MALAYSIA"; "THAILAND"; "INDONESIA";
    "PHILIPPINES"; "VIETNAM"; "INDIA"; "AUSTRALIA";
    "NEW ZEALAND" ].

(** The six region labels. *)
Definition JAPAN : string := "日本".
Definition US : string := "米国".
Definition EUROPE : string := "欧州".
Definition ASIA_PACIFIC : string := "アジア太平洋".
Definition NORTH_AMERICA_OTHER : string := "北米（その他）".
Definition OTHER : string := "その他".

Definition classify_region_by_country (country : option string) : string :=
  match country with
  | None => OTHER
  | Some c =>
      if negb (Py.truthy_str c) then OTHER
      else
        let country := Py.strip (Py.upper c) in
        if Py.in_list country ["JAPAN"] then JAPAN
        else if Py.in_list country ["UNITED STATES"; "USA"; "US"] then US
        else if Py.in_list country european_countries then EUROPE
        else if Py.in_list country asia_pacific_countries then ASIA_PACIFIC
        else if Py.in_list country ["CANADA"] then NORTH_AMERICA_OTHER
        else OTHER
  end.

(** The labels that the classifier can return. *)
Definition region_labels : list string :=
  [ JAPAN; US; EUROPE; ASIA_PACIFIC; NORTH_AMERICA_OTHER; OTHER ].

(** [get_ticker_country]. Yahoo Finance is outside the repository:
    [info_country ticker] is what [yf.Ticker(ticker).info.get('country')]
    does for the ticker, which is to raise or to give the field, [None] when
    the field is missing. *)
Definition get_ticker_country
    (info_country : string -> Py.result (option string))
    (ticker : string) : option string :=
  Py.try_except
    (country <- info_country ticker ;;
     Py.ret
       match country with
       | Some c => if Py.truthy_str c then Some c else None
       | None => None
       end)
    (fun _ => None).

(** [get_multiple_ticker_countries]: the dict is filled ticker by ticker, in
    the order of the list. *)
Definition get_multiple_ticker_countries
    (info_country : string -> Py.result (option string))
    (tickers : list string) : gmap string (option string) :=
  fold_left
    (fun countries ticker =>
       Py.try_except
         (Py.ret
            (<[ticker := get_ticker_country info_country ticker]> countries))
         (fun _ => <[ticker := None]> countries))
    tickers ∅.

End CountryFetcher.


(** ** The pandas and numpy operations used by the source *)

Module Pd.

(** A [float64]: a number, or one of the IEEE values. *)
Inductive float64 : Type :=
| Finite (q : Q)
| PosInf
| NegInf
| NaN.

Definition is_finite (x : float64) : bool :=
  match x with Finite _ => true | _ => false end.

(** Element of [a / b] for two numeric Series: no exception is raised on a
    zero denominator, the quotient is [±inf], and [NaN] for [0 / 0]. *)
Definition div (a b : Q) : float64 :=
  if Qeq_bool b 0 then
    if Py.gt a 0 then PosInf
    else if Py.gt 0 a then NegInf
    else NaN
  else Finite (a / b).

(** Element of [s * c] for a finite scalar [c > 0]. *)
Definition mul_pos (x : float64) (c : Q) : float64 :=
  match x with
  | Finite q => Finite (q * c)
  | other => other
  end.

(** [Series.fillna(v)]: only [NaN] is replaced. *)
Definition fillna (v : Q) (x : float64) : float64 :=
  match x with
  | NaN => Finite v
  | other => other
  end.

(** A DataFrame of records of type [A]: [NoColumns] is the frame that
    [pd.DataFrame([])] and [pd.DataFrame()] build, which has neither rows
    nor columns; [Frame rows] has the columns of [A]. *)
Inductive DataFrame (A : Type) : Type :=
| NoColumns
| Frame (rows : list A).
Arguments NoColumns {A}.
Arguments Frame {A} rows.

(** [pd.DataFrame(records)] for a list of dicts. *)
Definition of_records {A} (records : list A) : DataFrame A :=
  match records with
  | [] => NoColumns
  | _ => Frame records
  end.

(** [df.empty]. *)
Definition empty {A} (df : DataFrame A) : bool :=
  match df with
  | NoColumns => true
  | Frame [] => true
  | Frame _ => false
  end.

(** The rows of a frame, in index order. *)
Definition records {A} (df : DataFrame A) : list A :=
  match df with
  | NoColumns => []
  | Frame rows => rows
  end.

(** [len(df)]. *)
Definition len {A} (df : DataFrame A) : Z :=
  match df with
  | NoColumns => 0
  | Frame rows => Z.of_nat (length rows)
  end.

(** [df[name]] for a column read by [get]: a [KeyError] without columns. *)
Definition column {A B} (name : string) (get : A -> B) (df : DataFrame A)
  : Py.result (list B) :=
  match df with
  | NoColumns => Py.raise (Py.KeyError name)
  | Frame rows => Py.ret (map get rows)
  end.

(** [Series.sum()]. *)
Definition sum (s : list Q) : Q := fold_right Qplus 0%Q s.

(** [(s > 0).sum()]: the number of positive entries. *)
Definition count_positive (s : list Q) : Z :=
  Z.of_nat (length (List.filter (fun x => Py.gt x 0) s)).

(** Position of the first largest entry after position [i], given the best
    entry [best] seen so far at position [ibest]. *)
Fixpoint idxmax_from (i ibest : nat) (best : Q) (s : list Q) : nat :=
  match s with
  | [] => ibest
  | x :: s' =>
      if Py.gt x best then idxmax_from (S i) i x s'
      else idxmax_from (S i) ibest best s'
  end.

Fixpoint idxmin_from (i ibest : nat) (best : Q) (s : list Q) : nat :=
  match s with
  | [] => ibest
  | x :: s' =>
      if Py.gt best x then idxmin_from (S i) i x s'
      else idxmin_from (S i) ibest best s'
  end.

(** [Series.idxmax()] and [Series.idxmin()] under the default RangeIndex:
    the first position where the extremum is reached; a [ValueError] on
    an empty Series. *)
Definition idxmax (s : list Q) : Py.result nat :=
  match s with
  | [] => Py.raise Py.ValueError
  | x :: s' => Py.ret (idxmax_from 1 0 x s')
  end.

Definition idxmin (s : list Q) : Py.result nat :=
  match s with
  | [] => Py.raise Py.ValueError
  | x :: s' => Py.ret (idxmin_from 1 0 x s')
  end.

(** [Series.max()] and [Series.min()]: [NaN] on an empty Series. *)
Definition max (s : list Q) : float64 :=
  match s with
  | [] => NaN
  | x :: s' => Finite (nth (idxmax_from 1 0 x s') s x)
  end.

Definition min (s : list Q) : float64 :=
  match s with
  | [] => NaN
  | x :: s' => Finite (nth (idxmin_from 1 0 x s') s x)
  end.

(** [df.loc[i, name]] under the default RangeIndex. *)
Definition loc {A B} (name : string) (get : A -> B) (i : nat)
    (df : DataFrame A) : Py.result B :=
  match df with
  | NoColumns => Py.raise (Py.KeyError name)
  | Frame rows =>
      match nth_error rows i with
      | Some r => Py.ret (get r)
      | None => Py.raise (Py.KeyError name)
      end
  end.

(** Keys of a [groupby], which pandas sorts: insertion into a sorted list
    without duplicates. *)
Fixpoint insert_key (k : string) (ks : list string) : list string :=
  match ks with
  | [] => [k]
  | k' :: ks' =>
      match String.compare k k' with
      | Lt => k :: ks
      | Eq => ks
      | Gt => k' :: insert_key k ks'
      end
  end.

Definition group_keys (keys : list string) : list string :=
  fold_right insert_key [] keys.

(** The order in which the keys are sorted. *)
Definition key_lt (a b : string) : Prop := String.compare a b = Lt.

(** The rows of one group. *)
Definition group {A} (key : A -> string) (k : string) (rows : list A)
  : list A :=
  List.filter (fun r => String.eqb (key r) k) rows.

(** [Series.mean()]. *)
Definition mean (s : list Q) : Q :=
  (sum s / inject_Z (Z.of_nat (length s)))%Q.

(** [Series.var()], the sample variance: [NaN] with fewer than two
    entries. *)
Definition var (s : list Q) : float64 :=
  match s with
  | [] => NaN
  | [_] => NaN
  | _ =>
      Finite
        (sum (map (fun x => (x - mean s) * (x - mean s)) s)
         / inject_Z (Z.of_nat (length s) - 1))%Q
  end.

(** A standard deviation, kept exactly: the square root of [radicand], or
    [NaN]. *)
Inductive root : Type :=
| RootNaN
| Sqrt (radicand : Q).

(** [Series.std()]: the square root of the sample variance, computed
    exactly. Equal entries have the variance [0] here; in floats the mean is
    rounded and a variance of the order of the rounding error can remain. *)
Definition std (s : list Q) : root :=
  match var s with
  | Finite v => Sqrt v
  | _ => RootNaN
  end.

(** [r > 0] for a standard deviation: a square root is positive when its
    radicand is, and [NaN > 0] is false. *)
Definition root_positive (r : root) : bool :=
  match r with
  | Sqrt v => Py.gt v 0
  | RootNaN => false
  end.

(** A float that is a rational, a rational over a square root, or
    [NaN]. *)
Inductive surd : Type :=
| Rational (q : Q)
| OverSqrt (numerator radicand : Q)
| SurdNaN.

(** [x / r] for a standard deviation [r]. *)
Definition div_root (x : Q) (r : root) : surd :=
  match r with
  | Sqrt v => OverSqrt x v
  | RootNaN => SurdNaN
  end.

(** [np.ones(n) / n]. *)
Definition equal_weights (n : nat) : list Q :=
  repeat (1 / inject_Z (Z.of_nat n))%Q n.

(** [a * b] for two Series on the same index. *)
Definition mul (a b : list Q) : list Q :=
  map (fun ab => (fst ab * snd ab)%Q) (combine a b).

End Pd.

(** ** [modules/pnl_calculator.py] *)

Module PnlCalculator.

Import CountryFetcher.
Local Open Scope Q_scope.

(** The dict that [calculate_pnl] returns. *)
Record PnlData : Type := {
  ticker : string;
  shares : Q;
  avg_cost_jpy : Q;
  current_price_local : Q;
  current_price_jpy : Q;
  exchange_rate : Q;
  current_value_jpy : Q;
  cost_basis_jpy : Q;
  pnl_amount : Q;
  pnl_percentage : Q
}.

(** The [try] block of [calculate_pnl]. *)
Definition calculate_pnl_try (ticker : string)
    (shares avg_cost_jpy current_price_local exchange_rate : Q)
  : Py.result PnlData :=
  let current_price_jpy := current_price_local * exchange_rate in
  let current_value_jpy := current_price_jpy * shares in
  let cost_basis_jpy := avg_cost_jpy * shares in
  let pnl_amount := current_value_jpy - cost_basis_jpy in
  let pnl_percentage :=
    if Py.gt cost_basis_jpy 0 then (pnl_amount / cost_basis_jpy) * 100
    else 0 in
  Py.ret {| ticker := ticker;
            shares := shares;
            avg_cost_jpy := avg_cost_jpy;
            current_price_local := current_price_local;
            current_price_jpy := current_price_jpy;
            exchange_rate := exchange_rate;
            current_value_jpy := current_value_jpy;
            cost_basis_jpy := cost_basis_jpy;
            pnl_amount := pnl_amount;
            pnl_percentage := pnl_percentage |}.

(** Its [except Exception] handler. *)
Definition calculate_pnl_except (ticker : string)
    (shares avg_cost_jpy exchange_rate : Q) (e : Py.exn) : PnlData :=
  {| ticker := ticker;
     shares := shares;
     avg_cost_jpy := avg_cost_jpy;
     current_price_local := 0;
     current_price_jpy := 0;
     exchange_rate := exchange_rate;
     current_value_jpy := 0;
     cost_basis_jpy := avg_cost_jpy * shares;
     pnl_amount := - (avg_cost_jpy * shares);
     pnl_percentage := - 100 |}.

Definition calculate_pnl (ticker : string)
    (shares avg_cost_jpy current_price_local exchange_rate : Q) : PnlData :=
  Py.try_except
    (calculate_pnl_try ticker shares avg_cost_jpy current_price_local
       exchange_rate)
    (calculate_pnl_except ticker shares avg_cost_jpy exchange_rate).

Definition rate_mapping : gmap string string :=
  list_to_map
    [ ("USD", "USDJPY=X"); ("EUR", "EURJPY=X"); ("GBP", "GBPJPY=X");
      ("AUD", "AUDJPY=X"); ("CAD", "CADJPY=X"); ("CHF", "CHFJPY=X") ]%string.

Definition fallback_rates : gmap string Q :=
  list_to_map
    [ ("USD"%string, 150); ("EUR"%string, 160); ("GBP"%string, 180);
      ("AUD"%string, 100); ("CAD"%string, 110); ("CHF"%string, 165);
      ("HKD"%string, 19); ("SGD"%string, 110); ("CNY"%string, 21);
      ("KRW"%string, 11 # 100) ].

Definition get_exchange_rate_for_currency (currency : string)
    (exchange_rates : gmap string Q) : Q :=
  if String.eqb currency "JPY" then 1
  else
    let rate_symbol := rate_mapping !! currency in
    let live :=
      match rate_symbol with
      | Some symbol =>
          if Py.truthy_str symbol then exchange_rates !! symbol else None
      | None => None
      end in
    match live with
    | Some rate => rate
    | None => default 1 (fallback_rates !! currency)
    end.

(** The currencies of [rate_mapping], whose live rate is looked up. *)
Definition live_currencies : list string :=
  [ "USD"; "EUR"; "GBP"; "AUD"; "CAD"; "CHF" ]%string.

(** The currencies that [fallback_rates] lists and [rate_mapping] does
    not. *)
Definition fallback_only_currencies : list string :=
  [ "HKD"; "SGD"; "CNY"; "KRW" ]%string.

(** The currency-pair symbol of a currency, home currency per unit of the
    foreign one, as every entry of [rate_mapping] writes it. *)
Definition pair_symbol (currency : string) : string :=
  (currency +:+ "JPY=X")%string.

(** A row of the portfolio table ([Ticker,Shares,AvgCostJPY]). *)
Record PortfolioRow : Type := {
  Ticker : string;
  Shares : Q;
  AvgCostJPY : Q
}.

(** A row of the P&L table: the dict of [calculate_pnl] with the
    [currency] key added. *)
Record PnlRow : Type := {
  data : PnlData;
  currency : string
}.

(** The body of the loop of [calculate_portfolio_pnl]. *)
Definition pnl_of_row (current_prices exchange_rates : gmap string Q)
    (currency_mapping : gmap string string) (row : PortfolioRow) : PnlRow :=
  let ticker := Ticker row in
  let shares := Shares row in
  let avg_cost_jpy := AvgCostJPY row in
  let current_price_local := default 0 (current_prices !! ticker) in
  let currency := default "USD"%string (currency_mapping !! ticker) in
  let exchange_rate :=
    get_exchange_rate_for_currency currency exchange_rates in
  let pnl_data :=
    calculate_pnl ticker shares avg_cost_jpy current_price_local
      exchange_rate in
  {| data := pnl_data; currency := currency |}.

(** [portfolio_df] is given by its rows, in the order of [iterrows]. *)
Definition calculate_portfolio_pnl (portfolio_df : list PortfolioRow)
    (current_prices exchange_rates : gmap string Q)
    (currency_mapping : gmap string string) : Pd.DataFrame PnlRow :=
  let pnl_results :=
    map (pnl_of_row current_prices exchange_rates currency_mapping)
      portfolio_df in
  Pd.of_records pnl_results.

(** The dict built by [calculate_portfolio_summary]. *)
Record PortfolioSummary : Type := {
  total_positions : Z;
  total_cost_basis_jpy : Q;
  total_current_value_jpy : Q;
  total_pnl_amount_jpy : Q;
  overall_pnl_percentage : Q;
  win_rate : Q;
  profitable_positions : Z;
  losing_positions : Z;
  max_gain_amount : Pd.float64;
  max_loss_amount : Pd.float64;
  max_gain_percentage : Pd.float64;
  max_loss_percentage : Pd.float64;
  max_gain_ticker : string;
  max_loss_ticker : string;
  average_position_size : Q
}.

(** What [calculate_portfolio_summary] returns: the summary, or [{}]. *)
Inductive SummaryDict : Type :=
| EmptyDict
| Summary (summary : PortfolioSummary).

(** The [try] block of [calculate_portfolio_summary]. *)
Definition calculate_portfolio_summary_try (pnl_df : Pd.DataFrame PnlRow)
  : Py.result PortfolioSummary :=
  cost_basis <-
    Pd.column "cost_basis_jpy" (fun r => cost_basis_jpy (data r)) pnl_df ;;
  current_value <-
    Pd.column "current_value_jpy" (fun r => current_value_jpy (data r))
      pnl_df ;;
  pnl <- Pd.column "pnl_amount" (fun r => pnl_amount (data r)) pnl_df ;;
  let total_cost_basis := Pd.sum cost_basis in
  let total_current_value := Pd.sum current_value in
  let total_pnl_amount := Pd.sum pnl in
  let overall_pnl_percentage :=
    if Py.gt total_cost_basis 0
    then (total_pnl_amount / total_cost_basis) * 100 else 0 in
  let profitable_positions := Pd.count_positive pnl in
  let total_positions := Pd.len pnl_df in
  let win_rate :=
    if (0 <? total_positions)%Z
    then (Py.float_of_int profitable_positions
          / Py.float_of_int total_positions) * 100
    else 0 in
  let max_gain := Pd.max pnl in
  let max_loss := Pd.min pnl in
  pct <-
    Pd.column "pnl_percentage" (fun r => pnl_percentage (data r)) pnl_df ;;
  let max_gain_pct := Pd.max pct in
  let max_loss_pct := Pd.min pct in
  max_gain_ticker <-
    (if negb (Pd.empty pnl_df)
     then (i <- Pd.idxmax pnl ;;
           Pd.loc "ticker" (fun r => ticker (data r)) i pnl_df)
     else Py.ret ""%string) ;;
  max_loss_ticker <-
    (if negb (Pd.empty pnl_df)
     then (i <- Pd.idxmin pnl ;;
           Pd.loc "ticker" (fun r => ticker (data r)) i pnl_df)
     else Py.ret ""%string) ;;
  Py.ret {| total_positions := total_positions;
            total_cost_basis_jpy := total_cost_basis;
            total_current_value_jpy := total_current_value;
            total_pnl_amount_jpy := total_pnl_amount;
            overall_pnl_percentage := overall_pnl_percentage;
            win_rate := win_rate;
            profitable_positions := profitable_positions;
            losing_positions := (total_positions - profitable_positions)%Z;
            max_gain_amount := max_gain;
            max_loss_amount := max_loss;
            max_gain_percentage := max_gain_pct;
            max_loss_percentage := max_loss_pct;
            max_gain_ticker := max_gain_ticker;
            max_loss_ticker := max_loss_ticker;
            average_position_size :=
              if (0 <? total_positions)%Z
              then total_cost_basis / Py.float_of_int total_positions
              else 0 |}.

Definition calculate_portfolio_summary (pnl_df : Pd.DataFrame PnlRow)
  : SummaryDict :=
  Py.try_except
    (summary <- calculate_portfolio_summary_try pnl_df ;;
     Py.ret (Summary summary))
    (fun _ => EmptyDict).

(** The ticker-suffix branch of [get_region_for_ticker]. *)
Definition suffix_region (ticker : string) : string :=
  if Py.contains ".T" ticker || Py.contains ".JP" ticker then JAPAN
  else if Py.contains ".AS" ticker || Py.contains ".PA" ticker
          || Py.contains ".DE" ticker || Py.contains ".MI" ticker
          || Py.contains ".L" ticker then EUROPE
  else if Py.contains ".TO" ticker || Py.contains ".V" ticker
  then NORTH_AMERICA_OTHER
  else if Py.contains ".AX" ticker then ASIA_PACIFIC
  else if Py.contains ".HK" ticker then ASIA_PACIFIC
  else US.

(** The local function [get_region_for_ticker] of
    [calculate_sector_allocation]; [ticker_countries] is the enclosing
    function's argument, [None] by default. *)
Definition get_region_for_ticker
    (ticker_countries : option (gmap string (option string)))
    (ticker : string) : string :=
  match ticker_countries with
  | Some countries =>
      if Py.truthy_dict countries then
        match countries !! ticker with
        | Some country => classify_region_by_country country
        | None => suffix_region ticker
        end
      else suffix_region ticker
  | None => suffix_region ticker
  end.

(** A row of the grouped table, and a row of the table returned by
    [calculate_sector_allocation]. *)
Module Region.

Record Agg : Type := {
  country : string;
  current_value_jpy : Q;
  cost_basis_jpy : Q;
  pnl_amount : Q;
  position_count : Z
}.

Record Row : Type := {
  agg : Agg;
  allocation_percentage : Q;
  pnl_percentage : Pd.float64
}.

End Region.

(** The [country] column that [calculate_sector_allocation] adds to the
    table: the region of the row's ticker. *)
Definition row_country
    (ticker_countries : option (gmap string (option string)))
    (r : PnlRow) : string :=
  get_region_for_ticker ticker_countries (ticker (data r)).

(** [groupby('country').agg({...})] for one key. *)
Definition aggregate (country : PnlRow -> string) (rows : list PnlRow)
    (k : string) : Region.Agg :=
  let members := Pd.group country k rows in
  {| Region.country := k;
     Region.current_value_jpy :=
       Pd.sum (map (fun r => current_value_jpy (data r)) members);
     Region.cost_basis_jpy :=
       Pd.sum (map (fun r => cost_basis_jpy (data r)) members);
     Region.pnl_amount :=
       Pd.sum (map (fun r => pnl_amount (data r)) members);
     Region.position_count := Z.of_nat (length members) |}.

(** The [try] block of [calculate_sector_allocation]. *)
Definition calculate_sector_allocation_try (pnl_df : Pd.DataFrame PnlRow)
    (ticker_countries : option (gmap string (option string)))
  : Py.result (Pd.DataFrame Region.Row) :=
  match pnl_df with
  | Pd.NoColumns => Py.raise (Py.KeyError "ticker")
  | Pd.Frame rows =>
      let country r :=
        get_region_for_ticker ticker_countries (ticker (data r)) in
      let sector_allocation :=
        map (aggregate country rows) (Pd.group_keys (map country rows)) in
      let total_value :=
        Pd.sum (map Region.current_value_jpy sector_allocation) in
      Py.ret
        (Pd.Frame
           (map
              (fun a =>
                 {| Region.agg := a;
                    Region.allocation_percentage :=
                      if Py.gt total_value 0
                      then Region.current_value_jpy a / total_value * 100
                      else 0;
                    Region.pnl_percentage :=
                      Pd.fillna 0
                        (Pd.mul_pos
                           (Pd.div (Region.pnl_amount a)
                              (Region.cost_basis_jpy a))
                           100) |})
              sector_allocation))
  end.

Definition calculate_sector_allocation (pnl_df : Pd.DataFrame PnlRow)
    (ticker_countries : option (gmap string (option string)))
  : Pd.DataFrame Region.Row :=
  Py.try_except (calculate_sector_allocation_try pnl_df ticker_countries)
    (fun _ => Pd.NoColumns).

(** The dict built by [calculate_performance_metrics]. *)
Record PerformanceMetrics : Type := {
  weighted_return : Q;
  returns_std : Pd.root;
  sharpe_ratio : Pd.surd;
  max_drawdown : Pd.float64;
  risk_free_rate : Q
}.

(** What [calculate_performance_metrics] returns: the metrics, or [{}]. *)
Inductive MetricsDict : Type :=
| EmptyMetrics
| Metrics (metrics : PerformanceMetrics).

(** The [try] block of [calculate_performance_metrics]. The weighted sum
    and the variance are exact here, so that an order or an equality between
    two of the numeric fields holds of the source up to rounding only. *)
Definition calculate_performance_metrics_try (pnl_df : Pd.DataFrame PnlRow)
    (risk_free_rate : Q) : Py.result MetricsDict :=
  if Pd.empty pnl_df then Py.ret EmptyMetrics
  else
    current_value <-
      Pd.column "current_value_jpy" (fun r => current_value_jpy (data r))
        pnl_df ;;
    let total_value := Pd.sum current_value in
    let weights :=
      if Py.gt total_value 0
      then map (fun v => v / total_value) current_value
      else Pd.equal_weights (Z.to_nat (Pd.len pnl_df)) in
    pct <-
      Pd.column "pnl_percentage" (fun r => pnl_percentage (data r)) pnl_df ;;
    let weighted_return := Pd.sum (Pd.mul pct weights) in
    let returns_std := Pd.std pct in
    let excess_return := weighted_return - risk_free_rate in
    let sharpe_ratio :=
      if Pd.root_positive returns_std
      then Pd.div_root excess_return returns_std
      else Pd.Rational 0 in
    let max_drawdown := Pd.min pct in
    Py.ret
      (Metrics {| weighted_return := weighted_return;
                  returns_std := returns_std;
                  sharpe_ratio := sharpe_ratio;
                  max_drawdown := max_drawdown;
                  risk_free_rate := risk_free_rate |}).

(** [risk_free_rate] is [0.1] by default. *)
Definition calculate_performance_metrics (pnl_df : Pd.DataFrame PnlRow)
    (risk_free_rate : Q) : MetricsDict :=
  Py.try_except (calculate_performance_metrics_try pnl_df risk_free_rate)
    (fun _ => EmptyMetrics).

End PnlCalculator.

(** ** [app.py] *)

Module App.

Import CountryFetcher.

(** The local function [get_country_info] of [display_detailed_data]:
    the country shown for a ticker and its region. *)
Definition get_country_info (ticker_countries : gmap string (option string))
    (ticker : string) : string * string :=
  let country := default None (ticker_countries !! ticker) in
  let region := classify_region_by_country country in
  (match country with
   | Some c => if Py.truthy_str c then c else "取得失敗"
   | None => "取得失敗"
   end,
   region).

End App.

(** ** Sample portfolios *)

Module Scenario.

Import PnlCalculator.
Local Open Scope Q_scope.

(** Three positions worth 1,000,000, 2,000,000 and 3,000,000, the first
    two domiciled in Japan and the third in the United States. *)
Definition rows : list PnlRow :=
  [ {| data := calculate_pnl "7203.T" 100 5000 10000 1;
       currency := "JPY" |};
    {| data := calculate_pnl "6758.T" 200 8000 10000 1;
       currency := "JPY" |};
    {| data := calculate_pnl "AAPL" 100 15000 200 150;
       currency := "USD" |} ].

Definition countries : option (gmap string (option string)) :=
  Some {[ "7203.T"%string := Some "Japan"%string;
          "6758.T"%string := Some "Japan"%string;
          "AAPL"%string := Some "United States"%string ]}.

(** One position that cost nothing (shares received for free) and is
    quoted at 190 USD. *)
Definition gift_portfolio : list PortfolioRow :=
  [ {| Ticker := "AAPL"; Shares := 10; AvgCostJPY := 0 |} ].

Definition gift_prices : gmap string Q := {[ "AAPL"%string := 190 ]}.

Definition gift_pnl_df : Pd.DataFrame PnlRow :=
  calculate_portfolio_pnl gift_portfolio gift_prices ∅ ∅.

(** A country table in which the lookup of one ticker failed. *)
Definition failed_countries : gmap string (option string) :=
  {[ "7203.T"%string := None ]}.

(** Answers of Yahoo Finance: a country for two tickers, an empty field for
    a third, and a failed lookup for every other ticker. *)
Definition info_country (ticker : string) : Py.result (option string) :=
  if String.eqb ticker "7203.T" then Py.ret (Some "Japan"%string)
  else if String.eqb ticker "AAPL" then Py.ret (Some "United States"%string)
  else if String.eqb ticker "RY.TO" then Py.ret (Some ""%string)
  else Py.raise (Py.KeyError "country").

(** A portfolio with a position bought twice and one without a quote. *)
Definition mixed_portfolio : list PortfolioRow :=
  [ {| Ticker := "7203.T"; Shares := 100; AvgCostJPY := 2000 |};
    {| Ticker := "AAPL"; Shares := 10; AvgCostJPY := 15000 |};
    {| Ticker := "7203.T"; Shares := 50; AvgCostJPY := 2400 |};
    {| Ticker := "RY.TO"; Shares := 20; AvgCostJPY := 9000 |} ].

(** Two positions with the same P&L of 500,000, then a smaller one. *)
Definition tied_rows : list PnlRow :=
  [ {| data := calculate_pnl "7203.T" 100 5000 10000 1;
       currency := "JPY" |};
    {| data := calculate_pnl "9984.T" 50 10000 20000 1;
       currency := "JPY" |};
    {| data := calculate_pnl "6758.T" 200 8000 10000 1;
       currency := "JPY" |} ].

Definition mixed_prices : gmap string Q :=
  {[ "7203.T"%string := 2500; "AAPL"%string := 190 ]}.

Definition mixed_rates : gmap string Q :=
  {[ "USDJPY=X"%string := 150 ]}.

Definition mixed_currencies : gmap string string :=
  {[ "7203.T"%string := "JPY"%string; "RY.TO"%string := "CAD"%string ]}.

End Scenario.

(** * Properties *)

Import PnlCalculator.

Section Comparisons.

Local Open Scope Q_scope.

Lemma gt_true (x y : Q) : Py.gt x y = true <-> y < x.
Proof.
  unfold Py.gt. rewrite negb_true_iff.
  split; intros H.
  - apply Qnot_le_lt. intros Hle. apply Qle_bool_iff in Hle. congruence.
  - destruct (Qle_bool x y) eqn:E; [|reflexivity].
    apply Qle_bool_iff in E. exfalso. apply (Qlt_not_le _ _ H E).
Qed.

Lemma gt_false (x y : Q) : Py.gt x y = false <-> x <= y.
Proof.
  unfold Py.gt. rewrite negb_false_iff. apply Qle_bool_iff.
Qed.

End Comparisons.

(** ** The position P&L calculator *)

Section CalculatePnl.

Local Open Scope Q_scope.

(** The [try] block of [calculate_pnl] never raises on numbers. *)
Lemma calculate_pnl_try_ret (t : string) (s a p r : Q) :
  calculate_pnl_try t s a p r = Py.ret (calculate_pnl t s a p r).
Proof. reflexivity. Qed.

(** C7. For every result of [calculate_pnl]: when [cost_basis_jpy > 0],
    [pnl_percentage] is exactly [pnl_amount / cost_basis_jpy * 100]; when
    [cost_basis_jpy] is zero, [pnl_percentage] is [0]. *)
Theorem calculate_pnl_percentage (t : string) (s a p r : Q) :
  let res := calculate_pnl t s a p r in
  (0 < cost_basis_jpy res ->
   pnl_percentage res = pnl_amount res / cost_basis_jpy res * 100) /\
  (cost_basis_jpy res == 0 -> pnl_percentage res = 0).
Proof.
  cbn. split; intros H.
  - apply gt_true in H. rewrite H. reflexivity.
  - assert (E : Py.gt (a * s) 0 = false).
    { apply gt_false. rewrite H. apply Qle_refl. }
    rewrite E. reflexivity.
Qed.

Lemma calculate_pnl_percentage_witness :
  pnl_percentage (calculate_pnl "AAPL" 100 15000 190 150) == 90 /\
  pnl_percentage (calculate_pnl "GIFT" 100 0 190 150) = 0.
Proof.
  split.
  - rewrite (proj1 (calculate_pnl_percentage "AAPL" 100 15000 190 150));
      reflexivity.
  - apply (proj2 (calculate_pnl_percentage "GIFT" 100 0 190 150)).
    reflexivity.
Defined.

(** C1, as stated, fails: with no cost basis the percentage of a position
    without quote is [0], not [-100]. *)
Lemma missing_quote_zero_cost_basis :
  pnl_percentage (calculate_pnl "AAPL" 100 0 0 150) == 0 /\
  ~ pnl_percentage (calculate_pnl "AAPL" 100 0 0 150) == - (100).
Proof. split; [reflexivity | discriminate]. Qed.

(** C1, amended. With [current_price_local = 0] the calculator returns
    the result of its [try] block, in which [current_price_jpy = 0],
    [current_value_jpy = 0] and [pnl_amount = - cost_basis_jpy];
    [pnl_percentage] is [-100] when [cost_basis_jpy > 0] and [0] when
    [cost_basis_jpy <= 0] (so for [avg_cost_jpy = 0]). *)
Theorem calculate_pnl_missing_quote (t : string) (s a r : Q) :
  let res := calculate_pnl t s a 0 r in
  calculate_pnl_try t s a 0 r = Py.ret res /\
  current_price_jpy res == 0 /\
  current_value_jpy res == 0 /\
  cost_basis_jpy res = a * s /\
  pnl_amount res == - cost_basis_jpy res /\
  (0 < cost_basis_jpy res -> pnl_percentage res == - (100)) /\
  (cost_basis_jpy res <= 0 -> pnl_percentage res == 0).
Proof.
  cbn. split; [reflexivity|]. split; [ring|]. split; [ring|].
  split; [reflexivity|]. split; [ring|]. split.
  - intros H. pose proof H as Hgt. apply gt_true in Hgt. rewrite Hgt.
    field. split; intros E; rewrite E in H; ring_simplify in H;
      apply (Qlt_irrefl 0 H).
  - intros H. apply gt_false in H. rewrite H. reflexivity.
Qed.

Lemma calculate_pnl_missing_quote_witness :
  pnl_percentage (calculate_pnl "AAPL" 100 15000 0 150) == - (100) /\
  pnl_amount (calculate_pnl "AAPL" 100 15000 0 150) == - (1500000) /\
  pnl_percentage (calculate_pnl "GIFT" 100 0 0 150) == 0.
Proof.
  pose proof (calculate_pnl_missing_quote "AAPL" 100 15000 150) as H.
  pose proof (calculate_pnl_missing_quote "GIFT" 100 0 150) as G.
  cbv zeta in H, G.
  destruct H as (_ & _ & _ & _ & Hamount & Hpos & _).
  destruct G as (_ & _ & _ & _ & _ & _ & Gzero).
  split; [apply Hpos; reflexivity|].
  split; [rewrite Hamount; reflexivity|].
  apply Gzero. apply Qle_bool_imp_le. reflexivity.
Defined.

(** The scenario of the specification: 100 shares bought at 15,000 and
    quoted at 190 USD with a rate of 150. *)
Example calculate_pnl_scenario :
  let res := calculate_pnl "AAPL" 100 15000 190 150 in
  current_price_jpy res = 28500 /\
  current_value_jpy res = 2850000 /\
  cost_basis_jpy res = 1500000 /\
  pnl_amount res = 1350000 /\
  pnl_percentage res == 90.
Proof. cbv zeta. repeat split; vm_compute; reflexivity. Qed.

End CalculatePnl.

(** ** The currency normalizer *)

Section ExchangeRate.

Local Open Scope Q_scope.

(** Every symbol of [rate_mapping] is the pair symbol of its currency, and
    the mapped currencies are the six live ones. *)
Lemma rate_mapping_lookup (currency symbol : string) :
  rate_mapping !! currency = Some symbol <->
  In currency live_currencies /\ symbol = pair_symbol currency.
Proof.
  unfold rate_mapping, live_currencies. cbn [list_to_map foldr fst snd In].
  split.
  - intros H.
    repeat (apply lookup_insert_Some in H as [[<- <-] | [_ H]];
            [split; [tauto | reflexivity] |]).
    rewrite lookup_empty in H. discriminate.
  - intros [Hin ->].
    repeat (destruct Hin as [<- | Hin]; [vm_compute; reflexivity |]).
    destruct Hin.
Qed.

Lemma rate_mapping_none (currency : string) :
  ~ In currency live_currencies -> rate_mapping !! currency = None.
Proof.
  intros Hnot. destruct (rate_mapping !! currency) as [symbol|] eqn:E;
    [|reflexivity].
  apply rate_mapping_lookup in E as [Hin _]. contradiction.
Qed.

Lemma pair_symbol_truthy (currency : string) :
  Py.truthy_str (pair_symbol currency) = true.
Proof. destruct currency; reflexivity. Qed.

(** The fallback table, entry by entry. *)
Lemma fallback_rates_lookup (currency : string) :
  fallback_rates !! currency =
  if String.eqb currency "USD" then Some 150
  else if String.eqb currency "EUR" then Some 160
  else if String.eqb currency "GBP" then Some 180
  else if String.eqb currency "AUD" then Some 100
  else if String.eqb currency "CAD" then Some 110
  else if String.eqb currency "CHF" then Some 165
  else if String.eqb currency "HKD" then Some 19
  else if String.eqb currency "SGD" then Some 110
  else if String.eqb currency "CNY" then Some 21
  else if String.eqb currency "KRW" then Some (11 # 100)
  else None.
Proof.
  unfold fallback_rates. cbn [list_to_map foldr fst snd].
  repeat
    match goal with
    | |- context [String.eqb currency ?c] =>
        destruct (String.eqb_spec currency c) as [-> | Hne];
        [vm_compute; reflexivity
        | rewrite lookup_insert_ne by congruence; clear Hne]
    end.
  apply lookup_empty.
Qed.

(** The function, by cases on the currency. *)
Lemma get_exchange_rate_for_currency_unfold (currency : string)
    (exchange_rates : gmap string Q) :
  get_exchange_rate_for_currency currency exchange_rates =
  if String.eqb currency "JPY" then 1
  else if Py.in_list currency live_currencies
  then default (default 1 (fallback_rates !! currency))
         (exchange_rates !! pair_symbol currency)
  else default 1 (fallback_rates !! currency).
Proof.
  unfold get_exchange_rate_for_currency.
  destruct (String.eqb currency "JPY"); [reflexivity|].
  destruct (Py.in_list currency live_currencies) eqn:Hin.
  - assert (E : rate_mapping !! currency = Some (pair_symbol currency)).
    { apply rate_mapping_lookup. split; [|reflexivity].
      apply existsb_exists in Hin as (c & Hc & Heq).
      apply String.eqb_eq in Heq. subst c. exact Hc. }
    rewrite E, pair_symbol_truthy.
    destruct (exchange_rates !! pair_symbol currency); reflexivity.
  - rewrite rate_mapping_none; [reflexivity|].
    intros Hc. assert (Py.in_list currency live_currencies = true);
      [|congruence].
    apply existsb_exists. exists currency. split; [exact Hc|].
    apply String.eqb_refl.
Qed.

(** C4, as stated, fails: for a currency outside [rate_mapping] the table
    is not consulted, so a table that holds the HKD pair still yields the
    hard-coded rate. *)
Lemma get_exchange_rate_for_currency_hkd_table :
  let exchange_rates : gmap string Q := {[ "HKDJPY=X"%string := 20 ]} in
  exchange_rates !! pair_symbol "HKD" = Some 20 /\
  get_exchange_rate_for_currency "HKD" exchange_rates = 19 /\
  ~ get_exchange_rate_for_currency "HKD" exchange_rates == 20.
Proof.
  cbv zeta. split; [vm_compute; reflexivity|].
  split; [vm_compute; reflexivity|]. vm_compute. discriminate.
Qed.

(** C4, amended. The rate of the home currency JPY is [1]. For USD, EUR,
    GBP, AUD, CAD and CHF the rate is the table's entry for the pair
    symbol when the table has one, and the hard-coded fallback rate of the
    currency otherwise. For HKD, SGD, CNY and KRW the rate is the
    hard-coded fallback rate, whatever the table holds. For any other
    currency the rate is [1]. *)
Theorem get_exchange_rate_for_currency_cases (currency : string)
    (exchange_rates : gmap string Q) :
  let rate := get_exchange_rate_for_currency currency exchange_rates in
  (currency = "JPY"%string -> rate = 1) /\
  (In currency live_currencies ->
   forall r, exchange_rates !! pair_symbol currency = Some r -> rate = r) /\
  (In currency live_currencies ->
   exchange_rates !! pair_symbol currency = None ->
   fallback_rates !! currency = Some rate) /\
  (In currency fallback_only_currencies ->
   fallback_rates !! currency = Some rate) /\
  (currency <> "JPY"%string ->
   ~ In currency (live_currencies ++ fallback_only_currencies) ->
   fallback_rates !! currency = None /\ rate = 1).
Proof.
  cbv zeta. rewrite get_exchange_rate_for_currency_unfold.
  split; [intros ->; reflexivity|].
  split.
  { intros Hin r Hr.
    repeat (destruct Hin as [<- | Hin]; [cbn; rewrite Hr; reflexivity|]).
    destruct Hin. }
  split.
  { intros Hin Hnone.
    repeat (destruct Hin as [<- | Hin];
            [cbn; rewrite Hnone; vm_compute; reflexivity|]).
    destruct Hin. }
  split.
  { intros Hin.
    repeat (destruct Hin as [<- | Hin]; [vm_compute; reflexivity|]).
    destruct Hin. }
  intros Hjpy Hnot.
  assert (Hnone : fallback_rates !! currency = None).
  { rewrite fallback_rates_lookup.
    repeat
      match goal with
      | |- context [String.eqb currency ?c] =>
          destruct (String.eqb_spec currency c) as [-> | _];
          [exfalso; apply Hnot; cbn; tauto|]
      end.
    reflexivity. }
  split; [exact Hnone|].
  destruct (String.eqb_spec currency "JPY") as [|_]; [contradiction|].
  rewrite Hnone.
  destruct (Py.in_list currency live_currencies) eqn:Hin; [|reflexivity].
  exfalso. apply Hnot. apply in_or_app. left.
  apply existsb_exists in Hin as (c & Hc & Heq).
  apply String.eqb_eq in Heq. subst c. exact Hc.
Qed.

Lemma get_exchange_rate_for_currency_cases_witness :
  In "USD"%string live_currencies /\
  ({[ "USDJPY=X"%string := 145 ]} : gmap string Q) !! pair_symbol "USD"
    = Some 145 /\
  get_exchange_rate_for_currency "USD" {[ "USDJPY=X"%string := 145 ]}
    = 145 /\
  In "KRW"%string fallback_only_currencies /\
  fallback_rates !! "KRW"%string
    = Some (get_exchange_rate_for_currency "KRW" ∅) /\
  get_exchange_rate_for_currency "JPY" ∅ = 1 /\
  get_exchange_rate_for_currency "BRL" ∅ = 1.
Proof.
  pose proof (get_exchange_rate_for_currency_cases "USD"
                {[ "USDJPY=X"%string := 145 ]}) as Husd.
  pose proof (get_exchange_rate_for_currency_cases "KRW" ∅) as Hkrw.
  pose proof (get_exchange_rate_for_currency_cases "JPY" ∅) as Hjpy.
  pose proof (get_exchange_rate_for_currency_cases "BRL" ∅) as Hbrl.
  cbv zeta in Husd, Hkrw, Hjpy, Hbrl.
  destruct Husd as (_ & Hlive & _).
  destruct Hkrw as (_ & _ & _ & Hfixed & _).
  destruct Hjpy as (Hhome & _).
  destruct Hbrl as (_ & _ & _ & _ & Hother).
  assert (Hin : In "USD"%string live_currencies) by (cbn; tauto).
  assert (Hkin : In "KRW"%string fallback_only_currencies) by (cbn; tauto).
  split; [exact Hin|].
  split; [vm_compute; reflexivity|].
  split; [apply (Hlive Hin); vm_compute; reflexivity|].
  split; [exact Hkin|].
  split; [exact (Hfixed Hkin)|].
  split; [apply Hhome; reflexivity|].
  apply Hother; [discriminate|].
  cbn. intros H. repeat (destruct H as [H | H]; [discriminate H|]).
  destruct H.
Defined.

End ExchangeRate.

(** ** The portfolio P&L table *)

Section PortfolioPnl.

Local Open Scope Q_scope.

Lemma records_of_records {A} (l : list A) : Pd.records (Pd.of_records l) = l.
Proof. destruct l; reflexivity. Qed.

(** The rate that [get_exchange_rate_for_currency] gives for USD. *)
Lemma get_exchange_rate_for_currency_usd (exchange_rates : gmap string Q) :
  get_exchange_rate_for_currency "USD" exchange_rates =
  default 150 (exchange_rates !! "USDJPY=X"%string).
Proof. rewrite get_exchange_rate_for_currency_unfold. reflexivity. Qed.

(** C9. A position whose ticker is absent from [currency_mapping] is
    priced as a USD position: its row has currency ["USD"] and the exchange
    rate that [get_exchange_rate_for_currency] gives for USD, which is the
    table's [USDJPY=X] rate or else [150]; that rate is the one applied to
    the price, so [current_price_jpy] is the local price times it,
    [current_value_jpy] is that for all the shares, and [pnl_amount] is
    that value less the cost basis. *)
Theorem calculate_portfolio_pnl_unmapped_ticker
    (portfolio_df : list PortfolioRow)
    (current_prices exchange_rates : gmap string Q)
    (currency_mapping : gmap string string) (i : nat) (row : PortfolioRow) :
  nth_error portfolio_df i = Some row ->
  currency_mapping !! Ticker row = None ->
  let usd_rate := default 150 (exchange_rates !! "USDJPY=X"%string) in
  let price := default 0 (current_prices !! Ticker row) in
  exists res,
    nth_error
      (Pd.records
         (calculate_portfolio_pnl portfolio_df current_prices exchange_rates
            currency_mapping)) i = Some res /\
    ticker (data res) = Ticker row /\
    currency res = "USD"%string /\
    exchange_rate (data res) =
      get_exchange_rate_for_currency "USD" exchange_rates /\
    exchange_rate (data res) = usd_rate /\
    current_price_local (data res) = price /\
    current_price_jpy (data res) = price * usd_rate /\
    current_value_jpy (data res) = price * usd_rate * Shares row /\
    pnl_amount (data res)
      = price * usd_rate * Shares row - AvgCostJPY row * Shares row.
Proof.
  intros Hrow Hnone. cbv zeta.
  exists (pnl_of_row current_prices exchange_rates currency_mapping row).
  unfold calculate_portfolio_pnl. rewrite records_of_records.
  split.
  - rewrite nth_error_map, Hrow. reflexivity.
  - unfold pnl_of_row. rewrite Hnone.
    split; [reflexivity|]. split; [reflexivity|]. split; [reflexivity|].
    cbn [data calculate_pnl calculate_pnl_try Py.try_except Py.ret
         default from_option id exchange_rate current_price_local
         current_price_jpy current_value_jpy pnl_amount].
    rewrite (get_exchange_rate_for_currency_usd exchange_rates).
    repeat (split; [reflexivity|]). reflexivity.
Qed.

Lemma calculate_portfolio_pnl_unmapped_ticker_witness :
  let portfolio_df :=
    [ {| Ticker := "7203.T"; Shares := 100; AvgCostJPY := 2000 |};
      {| Ticker := "AAPL"; Shares := 10; AvgCostJPY := 15000 |} ] in
  let current_prices : gmap string Q := {[ "AAPL"%string := 190 ]} in
  let exchange_rates : gmap string Q := {[ "USDJPY=X"%string := 145 ]} in
  let currency_mapping : gmap string string :=
    {[ "7203.T"%string := "JPY"%string ]} in
  exists res,
    nth_error
      (Pd.records
         (calculate_portfolio_pnl portfolio_df current_prices exchange_rates
            currency_mapping)) 1
      = Some res /\
    ticker (data res) = "AAPL"%string /\
    currency res = "USD"%string /\
    exchange_rate (data res) = 145 /\
    current_price_jpy (data res) == 27550 /\
    current_value_jpy (data res) == 275500 /\
    pnl_amount (data res) == 125500.
Proof.
  cbv zeta.
  destruct (calculate_portfolio_pnl_unmapped_ticker
           [ {| Ticker := "7203.T"; Shares := 100; AvgCostJPY := 2000 |};
             {| Ticker := "AAPL"; Shares := 10; AvgCostJPY := 15000 |} ]
           {[ "AAPL"%string := 190 ]} {[ "USDJPY=X"%string := 145 ]}
           {[ "7203.T"%string := "JPY"%string ]} 1
           {| Ticker := "AAPL"; Shares := 10; AvgCostJPY := 15000 |})
    as (res & Hres & Hticker & Hcurrency & _ & Hrate & _ & Hprice & Hvalue
        & Hpnl).
  - reflexivity.
  - vm_compute. reflexivity.
  - exists res. split; [exact Hres|]. split; [exact Hticker|].
    split; [exact Hcurrency|]. split; [exact Hrate|].
    split; [rewrite Hprice; vm_compute; reflexivity|].
    split; [rewrite Hvalue; vm_compute; reflexivity|].
    rewrite Hpnl. vm_compute. reflexivity.
Defined.

End PortfolioPnl.

(** ** Sums and groups *)

Section Sums.

Local Open Scope Q_scope.

Lemma sum_cons (x : Q) (l : list Q) : Pd.sum (x :: l) = x + Pd.sum l.
Proof. reflexivity. Qed.

Lemma sum_map_ext {A} (g h : A -> Q) (l : list A) :
  (forall a, In a l -> g a == h a) ->
  Pd.sum (map g l) == Pd.sum (map h l).
Proof.
  induction l as [|a l IH]; intros H; cbn [map]; [reflexivity|].
  rewrite !sum_cons.
  rewrite (H a) by (left; reflexivity).
  rewrite IH; [reflexivity|].
  intros b Hb. apply H. right. exact Hb.
Qed.

Lemma sum_map_plus {A} (g h : A -> Q) (l : list A) :
  Pd.sum (map (fun a => g a + h a) l) == Pd.sum (map g l) + Pd.sum (map h l).
Proof.
  induction l as [|a l IH]; cbn [map]; [reflexivity|].
  rewrite !sum_cons, IH. ring.
Qed.

Lemma sum_map_zero {A} (l : list A) : Pd.sum (map (fun _ => 0) l) == 0.
Proof.
  induction l as [|a l IH]; cbn [map]; [reflexivity|].
  rewrite sum_cons, IH. reflexivity.
Qed.

Lemma sum_map_scale {A} (g : A -> Q) (t : Q) (l : list A) :
  Pd.sum (map (fun a => g a / t * 100) l) == Pd.sum (map g l) / t * 100.
Proof.
  induction l as [|a l IH]; cbn [map].
  - unfold Pd.sum, fold_right, Qdiv. ring.
  - rewrite !sum_cons, IH. unfold Qdiv. ring.
Qed.

(** A sum that picks the one key equal to [x]. *)
Lemma sum_map_indicator (x : string) (v : Q) (ks : list string) :
  List.NoDup ks ->
  Pd.sum (map (fun k => if String.eqb x k then v else 0) ks) ==
  if Py.in_list x ks then v else 0.
Proof.
  induction ks as [|k ks IH]; intros Hnd; cbn [map]; [reflexivity|].
  apply NoDup_cons_iff in Hnd as [Hk Hnd].
  rewrite sum_cons, (IH Hnd).
  unfold Py.in_list. cbn [existsb]. fold (Py.in_list x ks).
  destruct (String.eqb_spec x k) as [-> | Hne]; cbn [orb].
  - assert (E : Py.in_list k ks = false).
    { destruct (Py.in_list k ks) eqn:E; [|reflexivity].
      apply existsb_exists in E as (c & Hc & Heq).
      apply String.eqb_eq in Heq. subst c. contradiction. }
    rewrite E. ring.
  - destruct (Py.in_list x ks); ring.
Qed.

Lemma in_list_true (x : string) (l : list string) :
  In x l -> Py.in_list x l = true.
Proof.
  intros H. apply existsb_exists. exists x.
  split; [exact H | apply String.eqb_refl].
Qed.

Context {A : Type}.
Variable key : A -> string.
Variable f : A -> Q.

(** Summing [f] group by group, over distinct keys that cover the rows,
    is summing [f] over the rows. *)
Lemma sum_groups (rows : list A) (ks : list string) :
  List.NoDup ks ->
  (forall r, In r rows -> In (key r) ks) ->
  Pd.sum (map (fun k => Pd.sum (map f (Pd.group key k rows))) ks) ==
  Pd.sum (map f rows).
Proof.
  intros Hnd. induction rows as [|r rows IH]; intros Hcover.
  - apply sum_map_zero.
  - rewrite (sum_map_ext _
               (fun k => (if String.eqb (key r) k then f r else 0)
                         + Pd.sum (map f (Pd.group key k rows)))).
    + rewrite sum_map_plus, sum_map_indicator by exact Hnd.
      rewrite in_list_true by (apply Hcover; left; reflexivity).
      rewrite IH; [reflexivity|].
      intros r' Hr'. apply Hcover. right. exact Hr'.
    + intros k _. unfold Pd.group. cbn [List.filter].
      destruct (String.eqb (key r) k); cbn [map];
        rewrite ?sum_cons; ring.
Qed.

End Sums.

Section GroupKeys.

Lemma key_lt_trans (a b c : string) :
  Pd.key_lt a b -> Pd.key_lt b c -> Pd.key_lt a c.
Proof.
  unfold Pd.key_lt. intros Hab Hbc.
  apply String_as_OT.cmp_lt. apply String_as_OT.cmp_lt in Hab, Hbc.
  exact (String_as_OT.lt_trans _ _ _ Hab Hbc).
Qed.

Lemma key_lt_irrefl (a : string) : ~ Pd.key_lt a a.
Proof.
  unfold Pd.key_lt. intros H. pose proof (String.compare_antisym a a) as E.
  rewrite H in E. discriminate E.
Qed.

Lemma key_gt_lt (a b : string) : String.compare a b = Gt -> Pd.key_lt b a.
Proof.
  unfold Pd.key_lt. intros H. rewrite String.compare_antisym, H. reflexivity.
Qed.

Lemma insert_key_In (x k : string) (ks : list string) :
  In x (Pd.insert_key k ks) <-> x = k \/ In x ks.
Proof.
  induction ks as [|k' ks IH]; cbn.
  - intuition.
  - destruct (String.compare k k') eqn:E; cbn.
    + apply String.compare_eq_iff in E. subst k'. intuition.
    + intuition.
    + rewrite IH. intuition.
Qed.

Lemma group_keys_In (x : string) (l : list string) :
  In x (Pd.group_keys l) <-> In x l.
Proof.
  induction l as [|k l IH]; cbn; [reflexivity|].
  rewrite insert_key_In, IH. intuition.
Qed.

Lemma insert_key_sorted (k : string) (ks : list string) :
  StronglySorted Pd.key_lt ks -> StronglySorted Pd.key_lt (Pd.insert_key k ks).
Proof.
  induction ks as [|k' ks IH]; intros Hs; cbn.
  - constructor; constructor.
  - inversion Hs as [|? ? Hks Hall]; subst.
    destruct (String.compare k k') eqn:E.
    + exact Hs.
    + constructor; [exact Hs|].
      constructor; [exact E|].
      apply List.Forall_forall. intros c Hc.
      rewrite List.Forall_forall in Hall.
      exact (key_lt_trans _ _ _ E (Hall c Hc)).
    + constructor; [exact (IH Hks)|].
      apply List.Forall_forall. intros c Hc.
      apply insert_key_In in Hc as [-> | Hc].
      * exact (key_gt_lt _ _ E).
      * rewrite List.Forall_forall in Hall. exact (Hall c Hc).
Qed.

(** The keys of a [groupby] come out sorted. *)
Lemma group_keys_sorted (l : list string) :
  StronglySorted Pd.key_lt (Pd.group_keys l).
Proof.
  induction l as [|k l IH]; cbn; [constructor|].
  apply insert_key_sorted. exact IH.
Qed.

Lemma sorted_NoDup (ks : list string) :
  StronglySorted Pd.key_lt ks -> List.NoDup ks.
Proof.
  induction 1 as [|k ks Hs IH Hall]; constructor; [|exact IH].
  intros Hin. rewrite List.Forall_forall in Hall.
  exact (key_lt_irrefl k (Hall k Hin)).
Qed.

Lemma group_keys_NoDup (l : list string) : List.NoDup (Pd.group_keys l).
Proof. apply sorted_NoDup, group_keys_sorted. Qed.

End GroupKeys.

(** ** The allocation classifier *)

Section SectorAllocation.

Local Open Scope Q_scope.

Variable ticker_countries : option (gmap string (option string)).

Local Abbreviation country := (row_country ticker_countries).

(** On a frame with columns the [try] block returns the table of the
    regions, one row per key of the [groupby]. *)
Lemma calculate_sector_allocation_frame (rows : list PnlRow) :
  exists regions,
    calculate_sector_allocation (Pd.Frame rows) ticker_countries
      = Pd.Frame regions /\
    map Region.agg regions
      = map (aggregate country rows) (Pd.group_keys (map country rows)) /\
    forall a, In a regions ->
      Region.allocation_percentage a =
        (if Py.gt
              (Pd.sum
                 (map Region.current_value_jpy
                    (map (aggregate country rows)
                       (Pd.group_keys (map country rows))))) 0
         then Region.current_value_jpy (Region.agg a)
              / Pd.sum
                  (map Region.current_value_jpy
                     (map (aggregate country rows)
                        (Pd.group_keys (map country rows)))) * 100
         else 0) /\
      Region.pnl_percentage a =
        Pd.fillna 0
          (Pd.mul_pos
             (Pd.div (Region.pnl_amount (Region.agg a))
                (Region.cost_basis_jpy (Region.agg a))) 100).
Proof.
  eexists. split; [reflexivity|]. split.
  - rewrite map_map. cbn [Region.agg]. rewrite map_id. reflexivity.
  - intros a Ha. apply in_map_iff in Ha as (g & <- & _).
    split; reflexivity.
Qed.

(** The total over the regions is the total over the positions. *)
Lemma total_value_regions (rows : list PnlRow) :
  Pd.sum
    (map Region.current_value_jpy
       (map (aggregate country rows) (Pd.group_keys (map country rows)))) ==
  Pd.sum (map (fun r => current_value_jpy (data r)) rows).
Proof.
  rewrite map_map. cbn [aggregate Region.current_value_jpy].
  apply sum_groups.
  - apply group_keys_NoDup.
  - intros r Hr. apply group_keys_In. apply in_map. exact Hr.
Qed.

(** C5. When the total current value of the positions is positive, the
    allocation percentages of the regions sum to [100] (exactly, in the
    rational model, hence within [1e-6]); a positive total makes the
    sequence non-empty. *)
Theorem calculate_sector_allocation_sum (rows : list PnlRow) :
  0 < Pd.sum (map (fun r => current_value_jpy (data r)) rows) ->
  exists regions,
    calculate_sector_allocation (Pd.Frame rows) ticker_countries
      = Pd.Frame regions /\
    rows <> [] /\
    Pd.sum (map Region.allocation_percentage regions) == 100 /\
    Qabs (Pd.sum (map Region.allocation_percentage regions) - 100)
      <= 1 # 1000000.
Proof.
  intros Htotal.
  destruct (calculate_sector_allocation_frame rows)
    as (regions & Hframe & Hagg & Hcols).
  exists regions. split; [exact Hframe|].
  split; [intros ->; exact (Qlt_irrefl 0 Htotal)|].
  set (ks := Pd.group_keys (map country rows)) in *.
  set (total := Pd.sum (map Region.current_value_jpy
                          (map (aggregate country rows) ks))) in *.
  assert (Htot : total ==
            Pd.sum (map (fun r => current_value_jpy (data r)) rows))
    by apply total_value_regions.
  assert (Hpos : 0 < total) by (rewrite Htot; exact Htotal).
  assert (Hsum : Pd.sum (map Region.allocation_percentage regions) == 100).
  { rewrite (sum_map_ext _
               (fun a => Region.current_value_jpy (Region.agg a)
                         / total * 100)).
    - rewrite sum_map_scale.
      rewrite <- (map_map Region.agg Region.current_value_jpy), Hagg.
      fold total. field. intros E. rewrite E in Hpos.
      exact (Qlt_irrefl 0 Hpos).
    - intros a Ha. destruct (Hcols a Ha) as [-> _].
      apply gt_true in Hpos. rewrite Hpos. reflexivity. }
  split; [exact Hsum|].
  rewrite Hsum. discriminate.
Qed.

End SectorAllocation.


Section SectorAllocationExamples.

Local Open Scope Q_scope.

Lemma calculate_sector_allocation_sum_witness :
  0 < Pd.sum (map (fun r => current_value_jpy (data r)) Scenario.rows) /\
  exists regions,
    calculate_sector_allocation (Pd.Frame Scenario.rows) Scenario.countries
      = Pd.Frame regions /\
    Scenario.rows <> [] /\
    Pd.sum (map Region.allocation_percentage regions) == 100 /\
    Qabs (Pd.sum (map Region.allocation_percentage regions) - 100)
      <= 1 # 1000000.
Proof.
  split; [reflexivity|].
  apply (calculate_sector_allocation_sum Scenario.countries Scenario.rows).
  reflexivity.
Defined.

(** The region scenario of the specification: Japan and the US hold half
    of the value each. *)
Example calculate_sector_allocation_scenario :
  map (fun a => (Region.country (Region.agg a),
                 Region.position_count (Region.agg a),
                 Qred (Region.allocation_percentage a)))
    (Pd.records
       (calculate_sector_allocation (Pd.Frame Scenario.rows)
          Scenario.countries))
  = [ ("日本"%string, 2%Z, 50); ("米国"%string, 1%Z, 50) ].
Proof. vm_compute. reflexivity. Qed.

(** The percentage of a region, by cases on its cost basis and P&L. *)
Lemma region_pnl_percentage_cases (pnl cost : Q) :
  let pct := Pd.fillna 0 (Pd.mul_pos (Pd.div pnl cost) 100) in
  (~ cost == 0 -> pct = Pd.Finite (pnl / cost * 100)) /\
  (cost == 0 -> pnl == 0 -> pct = Pd.Finite 0) /\
  (cost == 0 -> 0 < pnl -> pct = Pd.PosInf) /\
  (cost == 0 -> pnl < 0 -> pct = Pd.NegInf).
Proof.
  cbv zeta. unfold Pd.div.
  destruct (Qeq_bool cost 0) eqn:E.
  - apply Qeq_bool_iff in E.
    split; [intros H; contradiction|].
    split; [|split]; intros _ H.
    + assert (E1 : Py.gt pnl 0 = false)
        by (apply gt_false; rewrite H; apply Qle_refl).
      assert (E2 : Py.gt 0 pnl = false)
        by (apply gt_false; rewrite H; apply Qle_refl).
      rewrite E1, E2. reflexivity.
    + apply gt_true in H. rewrite H. reflexivity.
    + assert (E1 : Py.gt pnl 0 = false)
        by (apply gt_false; apply Qlt_le_weak; exact H).
      apply gt_true in H. rewrite E1, H. reflexivity.
  - apply Qeq_bool_neq in E.
    split; [intros _; reflexivity|].
    split; [|split]; intros H; contradiction.
Qed.

(** C2 fails on the code: the only region of the portfolio
    [Scenario.gift_pnl_df] has cost basis [0] and P&L [285000], and its
    [pnl_percentage] is [+inf], which [fillna(0)] leaves in place. *)
Theorem calculate_sector_allocation_zero_cost_region :
  map (fun a => (Region.country (Region.agg a),
                 Region.cost_basis_jpy (Region.agg a),
                 Region.pnl_amount (Region.agg a),
                 Region.pnl_percentage a))
    (Pd.records (calculate_sector_allocation Scenario.gift_pnl_df None))
  = [ ("米国"%string, 0, 285000, Pd.PosInf) ].
Proof. vm_compute. reflexivity. Qed.

End SectorAllocationExamples.

(** ** Regions *)

Section Regions.

Lemma contains_app (sub stem s : string) :
  Py.contains sub s = true -> Py.contains sub (stem +:+ s) = true.
Proof.
  intros H. induction stem as [|c stem IH]; [exact H|].
  change (String c stem +:+ s) with (String c (stem +:+ s)).
  cbn [Py.contains]. rewrite IH. apply orb_true_r.
Qed.

(** C3 fails on the code: the fallback tests [".T" in ticker] first, and
    a ticker that ends in [".TO"] contains [".T"], so it is classified as
    Japan and never reaches the [".TO"] branch. *)
Theorem suffix_region_toronto (stem : string) :
  suffix_region (stem +:+ ".TO") = "日本" /\
  get_region_for_ticker None (stem +:+ ".TO") = "日本" /\
  get_region_for_ticker (Some ∅) (stem +:+ ".TO") = "日本".
Proof.
  assert (H : suffix_region (stem +:+ ".TO") = "日本").
  { unfold suffix_region.
    rewrite (contains_app ".T" stem ".TO") by reflexivity. reflexivity. }
  split; [exact H|]. split; exact H.
Qed.

(** A pattern that starts with a dot does not occur in a stem without a dot,
    so it occurs in [stem +:+ s] exactly when it occurs in [s]. *)
Lemma contains_dot_stem (rest stem s : string) :
  Py.contains "." stem = false ->
  Py.contains (String "." rest) (stem +:+ s)
  = Py.contains (String "." rest) s.
Proof.
  intros H. induction stem as [|c stem IH]; [reflexivity|].
  change (String c stem +:+ s) with (String c (stem +:+ s)).
  cbn [Py.contains String.prefix] in H |- *.
  destruct (ascii_dec "." c) as [E|E].
  - destruct stem; discriminate H.
  - cbn [orb] in H |- *. exact (IH H).
Qed.

(** On a ticker whose stem has no dot the fallback depends on the suffix
    alone. *)
Lemma suffix_region_stem (stem s : string) :
  Py.contains "." stem = false ->
  suffix_region (stem +:+ s) = suffix_region s.
Proof.
  intros H. unfold suffix_region.
  rewrite !(contains_dot_stem _ stem s H). reflexivity.
Qed.

(** X24. The fallback for each suffix, on a stem without a dot: every suffix but
    [".TO"] gives the region of its exchange. *)
Lemma suffix_region_table (stem : string) :
  Py.contains "." stem = false ->
  suffix_region stem = "米国" /\
  suffix_region (stem +:+ ".T") = "日本" /\
  suffix_region (stem +:+ ".AS") = "欧州" /\
  suffix_region (stem +:+ ".PA") = "欧州" /\
  suffix_region (stem +:+ ".DE") = "欧州" /\
  suffix_region (stem +:+ ".MI") = "欧州" /\
  suffix_region (stem +:+ ".L") = "欧州" /\
  suffix_region (stem +:+ ".AX") = "アジア太平洋" /\
  suffix_region (stem +:+ ".HK") = "アジア太平洋" /\
  suffix_region (stem +:+ ".V") = "北米（その他）" /\
  suffix_region (stem +:+ ".TO") = "日本".
Proof.
  intros H. split.
  - pose proof (suffix_region_stem stem "" H) as E.
    replace (stem +:+ "") with stem in E; [exact E|].
    clear. induction stem as [|c stem IH]; [reflexivity|].
    change (String c stem +:+ "") with (String c (stem +:+ "")).
    rewrite <- IH. reflexivity.
  - rewrite !(suffix_region_stem stem _ H). repeat split; reflexivity.
Qed.

(** The other suffixes of the fallback, on sample tickers. *)
Example suffix_region_samples :
  map suffix_region
    [ "7203.T"; "ASML.AS"; "MC.PA"; "SAP.DE"; "ENI.MI"; "VOD.L";
      "BHP.AX"; "0005.HK"; "SHOP.V"; "AAPL"; "RY.TO" ]
  = [ "日本"; "欧州"; "欧州"; "欧州"; "欧州"; "欧州";
      "アジア太平洋"; "アジア太平洋"; "北米（その他）"; "米国"; "日本" ].
Proof. vm_compute. reflexivity. Qed.

(** The country table of [classify_region_by_country], on samples. *)
Example classify_region_by_country_samples :
  map CountryFetcher.classify_region_by_country
    [ None; Some ""; Some "Japan"; Some " united states "; Some "Germany";
      Some "South Korea"; Some "Canada"; Some "Brazil" ]
  = [ "その他"; "その他"; "日本"; "米国"; "欧州";
      "アジア太平洋"; "北米（その他）"; "その他" ].
Proof. vm_compute. reflexivity. Qed.

Lemma truthy_dict_lookup {V} (d : gmap string V) (k : string) (v : V) :
  d !! k = Some v -> Py.truthy_dict d = true.
Proof.
  intros H. unfold Py.truthy_dict.
  apply negb_true_iff, Nat.eqb_neq.
  apply map_size_non_empty_iff. intros ->.
  rewrite lookup_empty in H. discriminate.
Qed.

(** [get_region_for_ticker] by cases on the lookup alone: on an empty dict
    the lookup finds nothing. *)
Lemma get_region_for_ticker_unfold
    (countries : gmap string (option string)) (t : string) :
  get_region_for_ticker (Some countries) t =
  match countries !! t with
  | Some country => CountryFetcher.classify_region_by_country country
  | None => suffix_region t
  end.
Proof.
  unfold get_region_for_ticker.
  destruct (countries !! t) as [country|] eqn:E.
  - rewrite (truthy_dict_lookup _ _ _ E). reflexivity.
  - destruct (Py.truthy_dict countries); reflexivity.
Qed.

(** A row is counted in the region it is assigned to. *)
Lemma calculate_sector_allocation_counts
    (ticker_countries : option (gmap string (option string)))
    (rows : list PnlRow) (r : PnlRow) :
  In r rows ->
  exists a,
    In a (Pd.records
            (calculate_sector_allocation (Pd.Frame rows) ticker_countries))
    /\ Region.country (Region.agg a)
       = get_region_for_ticker ticker_countries (ticker (data r))
    /\ (1 <= Region.position_count (Region.agg a))%Z.
Proof.
  intros Hr.
  destruct (calculate_sector_allocation_frame ticker_countries rows)
    as (regions & Hframe & Hagg & _).
  rewrite Hframe. cbn [Pd.records].
  set (country := row_country ticker_countries) in *.
  assert (Hin : In (aggregate country rows (country r))
                  (map Region.agg regions)).
  { rewrite Hagg. apply in_map. apply group_keys_In.
    apply (in_map country). exact Hr. }
  apply in_map_iff in Hin as (a & Ha & Hain).
  exists a. split; [exact Hain|]. rewrite Ha.
  split; [reflexivity|].
  cbn [aggregate Region.position_count].
  assert (Hmem : In r (Pd.group country (country r) rows)).
  { apply filter_In. split; [exact Hr | apply String.eqb_refl]. }
  destruct (Pd.group country (country r) rows); [destruct Hmem|].
  cbn [length]. lia.
Qed.

(** C10. A ticker that is a key of [ticker_countries] with value [None] is
    assigned the region ["その他"], the value of
    [classify_region_by_country None], and its position is counted in that
    region by [calculate_sector_allocation]. A key of [ticker_countries] is
    always classified by its country; the ticker-suffix fallback is taken
    exactly when the ticker is not a key, which covers the cases where
    [ticker_countries] is [None] or empty. *)
Theorem get_region_for_ticker_country_none
    (ticker_countries : option (gmap string (option string)))
    (t : string) :
  let region := get_region_for_ticker ticker_countries t in
  (forall countries,
      ticker_countries = Some countries ->
      countries !! t = Some None ->
      region = CountryFetcher.classify_region_by_country None /\
      region = "その他" /\
      forall rows r,
        In r rows -> ticker (data r) = t ->
        exists a,
          In a (Pd.records
                  (calculate_sector_allocation (Pd.Frame rows)
                     ticker_countries)) /\
          Region.country (Region.agg a) = "その他" /\
          (1 <= Region.position_count (Region.agg a))%Z) /\
  (forall countries country,
      ticker_countries = Some countries ->
      countries !! t = Some country ->
      region = CountryFetcher.classify_region_by_country country) /\
  (ticker_countries = None -> region = suffix_region t) /\
  (ticker_countries = Some ∅ -> region = suffix_region t) /\
  (forall countries,
      ticker_countries = Some countries ->
      countries !! t = None ->
      region = suffix_region t).
Proof.
  cbv zeta. split; [|split; [|split; [|split]]].
  - intros countries -> Hnone.
    assert (E : get_region_for_ticker (Some countries) t = "その他").
    { rewrite get_region_for_ticker_unfold, Hnone. reflexivity. }
    split; [exact E|]. split; [exact E|].
    intros rows r Hr Ht.
    destruct (calculate_sector_allocation_counts (Some countries) rows r Hr)
      as (a & Ha & Hcountry & Hcount).
    exists a. split; [exact Ha|]. split; [|exact Hcount].
    rewrite Hcountry, Ht. exact E.
  - intros countries country -> Hsome.
    rewrite get_region_for_ticker_unfold, Hsome. reflexivity.
  - intros ->. reflexivity.
  - intros ->. reflexivity.
  - intros countries -> Hnone.
    rewrite get_region_for_ticker_unfold, Hnone. reflexivity.
Qed.

Lemma get_region_for_ticker_country_none_witness :
  Scenario.failed_countries !! "7203.T"%string = Some None /\
  get_region_for_ticker (Some Scenario.failed_countries) "7203.T" = "その他" /\
  suffix_region "7203.T" = "日本" /\
  get_region_for_ticker (Some Scenario.failed_countries) "AAPL" = "米国" /\
  get_region_for_ticker None "7203.T" = "日本".
Proof.
  pose proof (get_region_for_ticker_country_none
                (Some Scenario.failed_countries) "7203.T") as H.
  pose proof (get_region_for_ticker_country_none
                (Some Scenario.failed_countries) "AAPL") as G.
  pose proof (get_region_for_ticker_country_none None "7203.T") as N.
  cbv zeta in H, G, N.
  destruct H as (Hnone & _).
  destruct G as (_ & _ & _ & _ & Gabsent).
  destruct N as (_ & _ & Nnone & _).
  assert (E : Scenario.failed_countries !! "7203.T"%string = Some None)
    by (vm_compute; reflexivity).
  split; [exact E|].
  split; [exact (proj1 (proj2 (Hnone _ eq_refl E)))|].
  split; [reflexivity|].
  split.
  - rewrite (Gabsent _ eq_refl); [reflexivity | vm_compute; reflexivity].
  - rewrite (Nnone eq_refl). reflexivity.
Defined.

End Regions.

(** ** The portfolio aggregator *)

Section PortfolioSummary.

Local Open Scope Q_scope.

Lemma idxmax_from_lt (s : list Q) (i ibest : nat) (best : Q) :
  (ibest < i)%nat -> (Pd.idxmax_from i ibest best s < i + length s)%nat.
Proof.
  revert i ibest best.
  induction s as [|x s IH]; intros i ibest best H; cbn [Pd.idxmax_from length].
  - lia.
  - destruct (Py.gt x best).
    + specialize (IH (S i) i x). lia.
    + specialize (IH (S i) ibest best). lia.
Qed.

Lemma idxmin_from_lt (s : list Q) (i ibest : nat) (best : Q) :
  (ibest < i)%nat -> (Pd.idxmin_from i ibest best s < i + length s)%nat.
Proof.
  revert i ibest best.
  induction s as [|x s IH]; intros i ibest best H; cbn [Pd.idxmin_from length].
  - lia.
  - destruct (Py.gt best x).
    + specialize (IH (S i) i x). lia.
    + specialize (IH (S i) ibest best). lia.
Qed.

(** On a frame with rows, the ticker at [idxmax] and at [idxmin] of a
    column is found. *)
Lemma loc_idxmax {B} (f : PnlRow -> Q) (g : PnlRow -> B) (name : string)
    (r : PnlRow) (rs : list PnlRow) :
  exists b,
    (i <- Pd.idxmax (map f (r :: rs)) ;; Pd.loc name g i (Pd.Frame (r :: rs)))
    = Py.ret b.
Proof.
  cbn [map Pd.idxmax Py.bind Py.ret Pd.loc].
  pose proof (idxmax_from_lt (map f rs) 1 0 (f r)) as Hlt.
  rewrite length_map in Hlt.
  destruct (nth_error (r :: rs) (Pd.idxmax_from 1 0 (f r) (map f rs)))
    as [row|] eqn:E.
  - exists (g row). reflexivity.
  - apply nth_error_None in E. cbn [length] in E. lia.
Qed.

Lemma loc_idxmin {B} (f : PnlRow -> Q) (g : PnlRow -> B) (name : string)
    (r : PnlRow) (rs : list PnlRow) :
  exists b,
    (i <- Pd.idxmin (map f (r :: rs)) ;; Pd.loc name g i (Pd.Frame (r :: rs)))
    = Py.ret b.
Proof.
  cbn [map Pd.idxmin Py.bind Py.ret Pd.loc].
  pose proof (idxmin_from_lt (map f rs) 1 0 (f r)) as Hlt.
  rewrite length_map in Hlt.
  destruct (nth_error (r :: rs) (Pd.idxmin_from 1 0 (f r) (map f rs)))
    as [row|] eqn:E.
  - exists (g row). reflexivity.
  - apply nth_error_None in E. cbn [length] in E. lia.
Qed.

(** The [try] block does not raise on a frame with rows. *)
Lemma calculate_portfolio_summary_try_frame (r : PnlRow) (rs : list PnlRow) :
  let pnl := map (fun r => pnl_amount (data r)) (r :: rs) in
  exists summary,
    calculate_portfolio_summary_try (Pd.Frame (r :: rs)) = Py.ret summary /\
    total_positions summary = Z.of_nat (length (r :: rs)) /\
    total_pnl_amount_jpy summary = Pd.sum pnl /\
    profitable_positions summary = Pd.count_positive pnl /\
    win_rate summary =
      Py.float_of_int (Pd.count_positive pnl)
      / Py.float_of_int (Z.of_nat (length (r :: rs))) * 100.
Proof.
  cbv zeta. unfold calculate_portfolio_summary_try.
  cbn [Pd.column Py.bind Py.ret Pd.empty negb Pd.len].
  destruct (loc_idxmax (fun r => pnl_amount (data r))
              (fun r => ticker (data r)) "ticker" r rs) as (tmax & Emax).
  destruct (loc_idxmin (fun r => pnl_amount (data r))
              (fun r => ticker (data r)) "ticker" r rs) as (tmin & Emin).
  rewrite Emax, Emin. cbn [Py.bind Py.ret].
  eexists. split; [reflexivity|].
  cbn [total_positions total_pnl_amount_jpy profitable_positions win_rate].
  split; [reflexivity|]. split; [reflexivity|]. split; [reflexivity|].
  reflexivity.
Qed.

Lemma count_positive_bounds (l : list Q) :
  (0 <= Pd.count_positive l <= Z.of_nat (length l))%Z.
Proof.
  unfold Pd.count_positive.
  pose proof (filter_length_le (fun x => Py.gt x 0) l). lia.
Qed.

(** A share of [k] out of [n > 0], in percent, lies in [0, 100]. *)
Lemma percentage_bounds (k n : Z) :
  (0 <= k <= n)%Z -> (0 < n)%Z ->
  0 <= Py.float_of_int k / Py.float_of_int n * 100 <= 100.
Proof.
  intros [Hk Hkn] Hn. unfold Py.float_of_int.
  assert (Hn' : 0 < inject_Z n)
    by (change 0 with (inject_Z 0); rewrite <- Zlt_Qlt; exact Hn).
  assert (Hk' : 0 <= inject_Z k)
    by (change 0 with (inject_Z 0); rewrite <- Zle_Qle; exact Hk).
  assert (Hkn' : inject_Z k <= inject_Z n)
    by (rewrite <- Zle_Qle; exact Hkn).
  assert (Hlo : 0 <= inject_Z k / inject_Z n).
  { apply Qle_shift_div_l; [exact Hn'|]. rewrite Qmult_0_l. exact Hk'. }
  assert (Hhi : inject_Z k / inject_Z n <= 1).
  { apply Qle_shift_div_r; [exact Hn'|]. rewrite Qmult_1_l. exact Hkn'. }
  split.
  - apply Qmult_le_0_compat; [exact Hlo | discriminate].
  - apply (Qle_trans _ (1 * 100)); [|discriminate].
    apply Qmult_le_compat_r; [exact Hhi | discriminate].
Qed.

(** C6. For a non-empty sequence of position results the aggregator
    returns a summary whose [total_pnl_amount_jpy] is the sum of the
    [pnl_amount] of the positions and whose [win_rate] lies in
    [0, 100]. *)
Theorem calculate_portfolio_summary_invariants (rows : list PnlRow) :
  rows <> [] ->
  exists summary,
    calculate_portfolio_summary (Pd.Frame rows) = Summary summary /\
    total_pnl_amount_jpy summary
      = Pd.sum (map (fun r => pnl_amount (data r)) rows) /\
    0 <= win_rate summary <= 100.
Proof.
  intros Hrows. destruct rows as [|r rs]; [contradiction|].
  destruct (calculate_portfolio_summary_try_frame r rs)
    as (summary & Htry & Htotal & Hpnl & _ & Hwin).
  exists summary. split.
  - unfold calculate_portfolio_summary. rewrite Htry. reflexivity.
  - split; [exact Hpnl|]. rewrite Hwin.
    apply percentage_bounds.
    + pose proof (count_positive_bounds
                    (map (fun r => pnl_amount (data r)) (r :: rs))) as H.
      rewrite length_map in H. exact H.
    + cbn [length]. lia.
Qed.

Lemma calculate_portfolio_summary_invariants_witness :
  Scenario.rows <> [] /\
  exists summary,
    calculate_portfolio_summary (Pd.Frame Scenario.rows) = Summary summary /\
    total_pnl_amount_jpy summary
      = Pd.sum (map (fun r => pnl_amount (data r)) Scenario.rows) /\
    0 <= win_rate summary <= 100.
Proof.
  split; [discriminate|].
  apply (calculate_portfolio_summary_invariants Scenario.rows).
  discriminate.
Defined.

(** The summary of the sample portfolio. *)
Example calculate_portfolio_summary_scenario :
  match calculate_portfolio_summary (Pd.Frame Scenario.rows) with
  | Summary summary =>
      total_positions summary = 3%Z /\
      Qred (total_pnl_amount_jpy summary) = 2400000 /\
      profitable_positions summary = 3%Z /\
      Qred (win_rate summary) = 100 /\
      max_gain_ticker summary = "AAPL"%string /\
      max_loss_ticker summary = "6758.T"%string
  | EmptyDict => False
  end.
Proof. vm_compute. repeat split; reflexivity. Qed.

(** C8. On an empty table the aggregator does not raise. The table without
    columns, which [calculate_portfolio_pnl] builds for an empty portfolio,
    makes the [try] block raise a [KeyError], which the handler turns into
    the empty dict; the empty table with columns gives the summary of
    zeros, with [NaN] extremes and empty tickers. *)
Theorem calculate_portfolio_summary_empty :
  calculate_portfolio_summary_try Pd.NoColumns
    = Py.raise (Py.KeyError "cost_basis_jpy") /\
  calculate_portfolio_summary Pd.NoColumns = EmptyDict /\
  (forall current_prices exchange_rates currency_mapping,
      calculate_portfolio_summary
        (calculate_portfolio_pnl [] current_prices exchange_rates
           currency_mapping) = EmptyDict) /\
  calculate_portfolio_summary (Pd.Frame []) =
    Summary {| total_positions := 0;
               total_cost_basis_jpy := 0;
               total_current_value_jpy := 0;
               total_pnl_amount_jpy := 0;
               overall_pnl_percentage := 0;
               win_rate := 0;
               profitable_positions := 0;
               losing_positions := 0;
               max_gain_amount := Pd.NaN;
               max_loss_amount := Pd.NaN;
               max_gain_percentage := Pd.NaN;
               max_loss_percentage := Pd.NaN;
               max_gain_ticker := "";
               max_loss_ticker := "";
               average_position_size := 0 |}.
Proof.
  split; [reflexivity|]. split; [reflexivity|].
  split; [intros; reflexivity|]. reflexivity.
Qed.

End PortfolioSummary.

(** * Further properties of the calculator *)

Section PositionProperties.

Local Open Scope Q_scope.

(** X1. The percentage of a position does not depend on its size: with [k]
    times the shares ([k > 0]), the value, the cost basis and the P&L are
    [k] times larger and [pnl_percentage] is the same. *)
Theorem calculate_pnl_scale_shares (t : string) (k s a p r : Q) :
  0 < k ->
  let res := calculate_pnl t s a p r in
  let res' := calculate_pnl t (k * s) a p r in
  current_value_jpy res' == k * current_value_jpy res /\
  cost_basis_jpy res' == k * cost_basis_jpy res /\
  pnl_amount res' == k * pnl_amount res /\
  pnl_percentage res' == pnl_percentage res.
Proof.
  intros Hk. cbn.
  split; [ring|]. split; [ring|]. split; [ring|].
  assert (E : a * (k * s) == k * (a * s)) by ring.
  destruct (Py.gt (a * s) 0) eqn:G.
  - apply gt_true in G.
    assert (G' : Py.gt (a * (k * s)) 0 = true).
    { apply gt_true. rewrite E. apply Qmult_lt_0_compat; assumption. }
    rewrite G'. field.
    repeat split; intros Z; rewrite Z in *;
      first [ apply (Qlt_irrefl 0); exact Hk
            | ring_simplify in G; apply (Qlt_irrefl 0); exact G ].
  - apply gt_false in G.
    assert (G' : Py.gt (a * (k * s)) 0 = false).
    { apply gt_false. rewrite E. nra. }
    rewrite G'. reflexivity.
Qed.

Lemma calculate_pnl_scale_shares_witness :
  0 < 3 /\
  pnl_percentage (calculate_pnl "AAPL" (3 * 100) 15000 190 150)
  == pnl_percentage (calculate_pnl "AAPL" 100 15000 190 150).
Proof.
  split; [reflexivity|].
  apply (calculate_pnl_scale_shares "AAPL" 3 100 15000 190 150).
  reflexivity.
Defined.

(** X2. For a position with shares and a positive average cost, the percentage
    is the relative change of the price in JPY against the average cost, and
    the position shows a profit exactly when that price is above the average
    cost. *)
Theorem calculate_pnl_price_ratio (t : string) (s a p r : Q) :
  0 < s -> 0 < a ->
  let res := calculate_pnl t s a p r in
  pnl_percentage res == (current_price_jpy res / a - 1) * 100 /\
  (0 < pnl_amount res <-> a < current_price_jpy res) /\
  (pnl_amount res == 0 <-> current_price_jpy res == a).
Proof.
  intros Hs Ha. cbn.
  assert (Hcost : 0 < a * s) by (apply Qmult_lt_0_compat; assumption).
  assert (Hs0 : ~ s == 0) by (intros Z; rewrite Z in Hs; discriminate Hs).
  assert (Ha0 : ~ a == 0) by (intros Z; rewrite Z in Ha; discriminate Ha).
  pose proof Hcost as G. apply gt_true in G. rewrite G.
  split; [field; split; assumption|].
  assert (E : p * r * s - a * s == (p * r - a) * s) by ring.
  split.
  - rewrite E. split; intros H.
    + apply (Qmult_lt_0_compat _ (/ s)) in H; [|apply Qinv_lt_0_compat; exact Hs].
      rewrite <- Qmult_assoc, Qmult_inv_r, Qmult_1_r in H by exact Hs0.
      lra.
    + apply Qmult_lt_0_compat; [lra | exact Hs].
  - rewrite E. split; intros H.
    + apply Qmult_integral in H as [H | H]; [lra | contradiction].
    + rewrite H. ring.
Qed.

Lemma calculate_pnl_price_ratio_witness :
  0 < 100 /\ 0 < 15000 /\
  pnl_percentage (calculate_pnl "AAPL" 100 15000 190 150)
  == (current_price_jpy (calculate_pnl "AAPL" 100 15000 190 150) / 15000 - 1)
     * 100.
Proof.
  split; [reflexivity|]. split; [reflexivity|].
  apply (calculate_pnl_price_ratio "AAPL" 100 15000 190 150); reflexivity.
Defined.

(** X3. A rate table with positive rates gives a positive rate for every
    currency: the hard-coded rates and the default [1] are positive. *)
Theorem get_exchange_rate_for_currency_positive (currency : string)
    (exchange_rates : gmap string Q) :
  (forall symbol rate, exchange_rates !! symbol = Some rate -> 0 < rate) ->
  0 < get_exchange_rate_for_currency currency exchange_rates.
Proof.
  intros Hpos. rewrite get_exchange_rate_for_currency_unfold.
  assert (Hfb : 0 < default 1 (fallback_rates !! currency)).
  { rewrite fallback_rates_lookup.
    repeat
      match goal with
      | |- context [String.eqb currency ?c] =>
          destruct (String.eqb currency c); [reflexivity|]
      end.
    reflexivity. }
  destruct (String.eqb currency "JPY"); [reflexivity|].
  destruct (Py.in_list currency live_currencies); [|exact Hfb].
  destruct (exchange_rates !! pair_symbol currency) as [rate|] eqn:E.
  - exact (Hpos _ _ E).
  - exact Hfb.
Qed.

Lemma get_exchange_rate_for_currency_positive_witness :
  0 < get_exchange_rate_for_currency "USD" Scenario.mixed_rates /\
  0 < get_exchange_rate_for_currency "KRW" Scenario.mixed_rates.
Proof.
  assert (H : forall symbol rate,
             Scenario.mixed_rates !! symbol = Some rate -> 0 < rate).
  { intros symbol rate E. unfold Scenario.mixed_rates in E.
    apply lookup_singleton_Some in E as [_ <-]. reflexivity. }
  split; apply get_exchange_rate_for_currency_positive; exact H.
Defined.

End PositionProperties.

(** * Further properties of the portfolio table *)

Section PortfolioTableProperties.

Local Open Scope Q_scope.

Variable current_prices exchange_rates : gmap string Q.
Variable currency_mapping : gmap string string.

Local Abbreviation pnl_table portfolio_df :=
  (calculate_portfolio_pnl portfolio_df current_prices exchange_rates
     currency_mapping).

Lemma calculate_portfolio_pnl_records (portfolio_df : list PortfolioRow) :
  Pd.records (pnl_table portfolio_df)
  = map (pnl_of_row current_prices exchange_rates currency_mapping)
      portfolio_df.
Proof. unfold calculate_portfolio_pnl. apply records_of_records. Qed.

Lemma calculate_portfolio_pnl_frame (row : PortfolioRow)
    (portfolio_df : list PortfolioRow) :
  pnl_table (row :: portfolio_df)
  = Pd.Frame
      (map (pnl_of_row current_prices exchange_rates currency_mapping)
         (row :: portfolio_df)).
Proof. reflexivity. Qed.

(** X4. The P&L table has one row per row of the portfolio, in the same order
    and with the same ticker and shares: a ticker listed twice gives two
    rows. The table is empty exactly when the portfolio is. *)
Theorem calculate_portfolio_pnl_rows (portfolio_df : list PortfolioRow) :
  map (fun r => ticker (data r)) (Pd.records (pnl_table portfolio_df))
    = map Ticker portfolio_df /\
  map (fun r => shares (data r)) (Pd.records (pnl_table portfolio_df))
    = map Shares portfolio_df /\
  Pd.len (pnl_table portfolio_df) = Z.of_nat (length portfolio_df) /\
  (Pd.empty (pnl_table portfolio_df) = true <-> portfolio_df = []).
Proof.
  rewrite calculate_portfolio_pnl_records, !map_map.
  split; [reflexivity|]. split; [reflexivity|].
  destruct portfolio_df as [|row rest].
  - split; [reflexivity|]. split; reflexivity.
  - rewrite calculate_portfolio_pnl_frame. cbn [Pd.len].
    rewrite length_map. split; [reflexivity|].
    split; intros H; discriminate H.
Qed.

(** X5. A position whose ticker has no entry in [current_prices] is priced at
    [0]: its row is worth nothing and its P&L is the full cost of the
    position, [- AvgCostJPY * Shares]. *)
Theorem calculate_portfolio_pnl_missing_price
    (portfolio_df : list PortfolioRow) (i : nat) (row : PortfolioRow) :
  nth_error portfolio_df i = Some row ->
  current_prices !! Ticker row = None ->
  exists res,
    nth_error (Pd.records (pnl_table portfolio_df)) i = Some res /\
    ticker (data res) = Ticker row /\
    current_price_local (data res) = 0 /\
    current_value_jpy (data res) == 0 /\
    pnl_amount (data res) == - (AvgCostJPY row * Shares row).
Proof.
  intros Hrow Hnone.
  exists (pnl_of_row current_prices exchange_rates currency_mapping row).
  rewrite calculate_portfolio_pnl_records, nth_error_map, Hrow.
  split; [reflexivity|]. split; [reflexivity|].
  unfold pnl_of_row. rewrite Hnone.
  cbn [data calculate_pnl calculate_pnl_try Py.try_except Py.ret default
       current_price_local current_value_jpy pnl_amount].
  split; [reflexivity|]. split; ring.
Qed.

End PortfolioTableProperties.

Lemma calculate_portfolio_pnl_missing_price_witness :
  nth_error Scenario.mixed_portfolio 3
    = Some {| Ticker := "RY.TO"; Shares := 20; AvgCostJPY := 9000 |} /\
  Scenario.mixed_prices !! "RY.TO"%string = None /\
  exists res,
    nth_error
      (Pd.records
         (calculate_portfolio_pnl Scenario.mixed_portfolio
            Scenario.mixed_prices Scenario.mixed_rates
            Scenario.mixed_currencies)) 3 = Some res /\
    (pnl_amount (data res) == - (180000))%Q.
Proof.
  split; [reflexivity|]. split; [vm_compute; reflexivity|].
  destruct (calculate_portfolio_pnl_missing_price Scenario.mixed_prices
              Scenario.mixed_rates Scenario.mixed_currencies
              Scenario.mixed_portfolio 3
              {| Ticker := "RY.TO"; Shares := 20; AvgCostJPY := 9000 |})
    as (res & Hres & _ & _ & _ & Hpnl).
  - reflexivity.
  - vm_compute. reflexivity.
  - exists res. split; [exact Hres|]. rewrite Hpnl. reflexivity.
Defined.

(** * Further properties of the portfolio summary *)

Section Extremes.

Local Open Scope Q_scope.

(** The scan of [idxmax]: either the best entry so far stays, and no entry
    of the rest exceeds it, or the result is the first entry of the rest that
    is a largest one, which exceeds the best so far and every entry before
    it. *)
Lemma idxmax_from_first (s : list Q) (i ibest : nat) (best : Q) :
  (Pd.idxmax_from i ibest best s = ibest /\
   forall y, In y s -> y <= best) \/
  (exists k m,
      Pd.idxmax_from i ibest best s = (i + k)%nat /\
      nth_error s k = Some m /\ best < m /\
      (forall y, In y s -> y <= m) /\
      forall j y, (j < k)%nat -> nth_error s j = Some y -> y < m).
Proof.
  revert i ibest best.
  induction s as [|x s IH]; intros i ibest best; cbn [Pd.idxmax_from].
  - left. split; [reflexivity|]. intros y [].
  - destruct (Py.gt x best) eqn:G.
    + apply gt_true in G. right.
      destruct (IH (S i) i x) as [[Hr Hall] | (k & m & Hr & Hk & Hm & Hall & Hfirst)].
      * exists 0%nat, x. rewrite Hr, Nat.add_0_r.
        split; [reflexivity|]. split; [reflexivity|]. split; [exact G|].
        split.
        -- intros y [<- | Hy]; [apply Qle_refl | exact (Hall y Hy)].
        -- intros j y Hj. lia.
      * exists (S k), m. rewrite Hr.
        split; [lia|]. split; [exact Hk|].
        split; [apply (Qlt_trans _ x); assumption|].
        split.
        -- intros y [<- | Hy]; [apply Qlt_le_weak; exact Hm | exact (Hall y Hy)].
        -- intros [|j] y Hj Hy.
           ++ cbn in Hy. injection Hy as <-. exact Hm.
           ++ cbn in Hy. apply (Hfirst j y); [lia | exact Hy].
    + apply gt_false in G.
      destruct (IH (S i) ibest best)
        as [[Hr Hall] | (k & m & Hr & Hk & Hm & Hall & Hfirst)].
      * left. split; [exact Hr|].
        intros y [<- | Hy]; [exact G | exact (Hall y Hy)].
      * right. exists (S k), m. rewrite Hr.
        split; [lia|]. split; [exact Hk|]. split; [exact Hm|].
        split.
        -- intros y [<- | Hy].
           ++ apply Qlt_le_weak. apply (Qle_lt_trans _ best); assumption.
           ++ exact (Hall y Hy).
        -- intros [|j] y Hj Hy.
           ++ cbn in Hy. injection Hy as <-.
              apply (Qle_lt_trans _ best); assumption.
           ++ cbn in Hy. apply (Hfirst j y); [lia | exact Hy].
Qed.

Lemma idxmin_from_first (s : list Q) (i ibest : nat) (best : Q) :
  (Pd.idxmin_from i ibest best s = ibest /\
   forall y, In y s -> best <= y) \/
  (exists k m,
      Pd.idxmin_from i ibest best s = (i + k)%nat /\
      nth_error s k = Some m /\ m < best /\
      (forall y, In y s -> m <= y) /\
      forall j y, (j < k)%nat -> nth_error s j = Some y -> m < y).
Proof.
  revert i ibest best.
  induction s as [|x s IH]; intros i ibest best; cbn [Pd.idxmin_from].
  - left. split; [reflexivity|]. intros y [].
  - destruct (Py.gt best x) eqn:G.
    + apply gt_true in G. right.
      destruct (IH (S i) i x) as [[Hr Hall] | (k & m & Hr & Hk & Hm & Hall & Hfirst)].
      * exists 0%nat, x. rewrite Hr, Nat.add_0_r.
        split; [reflexivity|]. split; [reflexivity|]. split; [exact G|].
        split.
        -- intros y [<- | Hy]; [apply Qle_refl | exact (Hall y Hy)].
        -- intros j y Hj. lia.
      * exists (S k), m. rewrite Hr.
        split; [lia|]. split; [exact Hk|].
        split; [apply (Qlt_trans _ x); assumption|].
        split.
        -- intros y [<- | Hy]; [apply Qlt_le_weak; exact Hm | exact (Hall y Hy)].
        -- intros [|j] y Hj Hy.
           ++ cbn in Hy. injection Hy as <-. exact Hm.
           ++ cbn in Hy. apply (Hfirst j y); [lia | exact Hy].
    + apply gt_false in G.
      destruct (IH (S i) ibest best)
        as [[Hr Hall] | (k & m & Hr & Hk & Hm & Hall & Hfirst)].
      * left. split; [exact Hr|].
        intros y [<- | Hy]; [exact G | exact (Hall y Hy)].
      * right. exists (S k), m. rewrite Hr.
        split; [lia|]. split; [exact Hk|]. split; [exact Hm|].
        split.
        -- intros y [<- | Hy].
           ++ apply Qlt_le_weak. apply (Qlt_le_trans _ best); assumption.
           ++ exact (Hall y Hy).
        -- intros [|j] y Hj Hy.
           ++ cbn in Hy. injection Hy as <-.
              apply (Qlt_le_trans _ best); assumption.
           ++ cbn in Hy. apply (Hfirst j y); [lia | exact Hy].
Qed.

(** [idxmax] of a non-empty Series is the first position of a largest
    entry, and [max] is the entry there. *)
Lemma idxmax_first (x : Q) (s : list Q) :
  exists m,
    nth_error (x :: s) (Pd.idxmax_from 1 0 x s) = Some m /\
    Pd.max (x :: s) = Pd.Finite m /\
    (forall y, In y (x :: s) -> y <= m) /\
    forall j y,
      (j < Pd.idxmax_from 1 0 x s)%nat -> nth_error (x :: s) j = Some y ->
      y < m.
Proof.
  unfold Pd.max.
  destruct (idxmax_from_first s 1 0 x)
    as [[Hr Hall] | (k & m & Hr & Hk & Hm & Hall & Hfirst)]; rewrite Hr.
  - exists x. split; [reflexivity|]. split; [reflexivity|]. split.
    + intros y [<- | Hy]; [apply Qle_refl | exact (Hall y Hy)].
    + intros j y Hj. lia.
  - exists m. cbn [Nat.add nth_error nth].
    split; [exact Hk|].
    split; [rewrite (nth_error_nth _ _ _ Hk); reflexivity|]. split.
    + intros y [<- | Hy]; [apply Qlt_le_weak; exact Hm | exact (Hall y Hy)].
    + intros [|j] y Hj Hy.
      * cbn in Hy. injection Hy as <-. exact Hm.
      * cbn in Hy. apply (Hfirst j y); [lia | exact Hy].
Qed.

Lemma idxmin_first (x : Q) (s : list Q) :
  exists m,
    nth_error (x :: s) (Pd.idxmin_from 1 0 x s) = Some m /\
    Pd.min (x :: s) = Pd.Finite m /\
    (forall y, In y (x :: s) -> m <= y) /\
    forall j y,
      (j < Pd.idxmin_from 1 0 x s)%nat -> nth_error (x :: s) j = Some y ->
      m < y.
Proof.
  unfold Pd.min.
  destruct (idxmin_from_first s 1 0 x)
    as [[Hr Hall] | (k & m & Hr & Hk & Hm & Hall & Hfirst)]; rewrite Hr.
  - exists x. split; [reflexivity|]. split; [reflexivity|]. split.
    + intros y [<- | Hy]; [apply Qle_refl | exact (Hall y Hy)].
    + intros j y Hj. lia.
  - exists m. cbn [Nat.add nth_error nth].
    split; [exact Hk|].
    split; [rewrite (nth_error_nth _ _ _ Hk); reflexivity|]. split.
    + intros y [<- | Hy]; [apply Qlt_le_weak; exact Hm | exact (Hall y Hy)].
    + intros [|j] y Hj Hy.
      * cbn in Hy. injection Hy as <-. exact Hm.
      * cbn in Hy. apply (Hfirst j y); [lia | exact Hy].
Qed.

End Extremes.

Section SummaryProperties.

Local Open Scope Q_scope.

Local Abbreviation pnl_column := (map (fun r => pnl_amount (data r))).
Local Abbreviation cost_column := (map (fun r => cost_basis_jpy (data r))).
Local Abbreviation value_column :=
  (map (fun r => current_value_jpy (data r))).

(** The summary of a table with rows, field by field; [rmax] and [rmin] are
    the rows at [idxmax] and [idxmin] of the P&L column. *)
Lemma calculate_portfolio_summary_fields (r : PnlRow) (rs : list PnlRow) :
  let rows := r :: rs in
  let imax :=
    Pd.idxmax_from 1 0 (pnl_amount (data r)) (pnl_column rs) in
  let imin :=
    Pd.idxmin_from 1 0 (pnl_amount (data r)) (pnl_column rs) in
  exists summary rmax rmin,
    calculate_portfolio_summary (Pd.Frame rows) = Summary summary /\
    nth_error rows imax = Some rmax /\
    nth_error rows imin = Some rmin /\
    max_gain_ticker summary = ticker (data rmax) /\
    max_loss_ticker summary = ticker (data rmin) /\
    max_gain_amount summary = Pd.max (pnl_column rows) /\
    max_loss_amount summary = Pd.min (pnl_column rows) /\
    total_positions summary = Z.of_nat (length rows) /\
    total_cost_basis_jpy summary = Pd.sum (cost_column rows) /\
    total_current_value_jpy summary = Pd.sum (value_column rows) /\
    total_pnl_amount_jpy summary = Pd.sum (pnl_column rows) /\
    profitable_positions summary = Pd.count_positive (pnl_column rows) /\
    losing_positions summary
      = (Z.of_nat (length rows) - Pd.count_positive (pnl_column rows))%Z /\
    overall_pnl_percentage summary
      = (if Py.gt (Pd.sum (cost_column rows)) 0
         then Pd.sum (pnl_column rows) / Pd.sum (cost_column rows) * 100
         else 0) /\
    win_rate summary
      = Py.float_of_int (Pd.count_positive (pnl_column rows))
        / Py.float_of_int (Z.of_nat (length rows)) * 100.
Proof.
  cbv zeta.
  pose proof (idxmax_from_lt (pnl_column rs) 1 0 (pnl_amount (data r))) as Hmax.
  pose proof (idxmin_from_lt (pnl_column rs) 1 0 (pnl_amount (data r))) as Hmin.
  rewrite length_map in Hmax, Hmin.
  destruct (nth_error (r :: rs)
              (Pd.idxmax_from 1 0 (pnl_amount (data r)) (pnl_column rs)))
    as [rmax|] eqn:Emax;
    [|apply nth_error_None in Emax; cbn [length] in Emax; lia].
  destruct (nth_error (r :: rs)
              (Pd.idxmin_from 1 0 (pnl_amount (data r)) (pnl_column rs)))
    as [rmin|] eqn:Emin;
    [|apply nth_error_None in Emin; cbn [length] in Emin; lia].
  unfold calculate_portfolio_summary, calculate_portfolio_summary_try.
  cbn [Pd.column Py.bind Py.ret Pd.empty negb Pd.len map Pd.idxmax Pd.idxmin
       Pd.loc].
  rewrite Emax, Emin. cbn [Py.bind Py.ret Py.try_except].
  eexists _, rmax, rmin. split; [reflexivity|].
  cbn [max_gain_ticker max_loss_ticker max_gain_amount max_loss_amount
       total_positions total_cost_basis_jpy total_current_value_jpy
       total_pnl_amount_jpy profitable_positions losing_positions
       overall_pnl_percentage win_rate].
  repeat (split; [reflexivity|]). reflexivity.
Qed.

(** X8. The summary of a table with rows counts every row once, as profitable
    or as losing: the two counts are not negative and add up to
    [total_positions], the number of rows. *)
Theorem calculate_portfolio_summary_counts (rows : list PnlRow) :
  rows <> [] ->
  exists summary,
    calculate_portfolio_summary (Pd.Frame rows) = Summary summary /\
    total_positions summary = Z.of_nat (length rows) /\
    (0 <= profitable_positions summary)%Z /\
    (0 <= losing_positions summary)%Z /\
    (profitable_positions summary + losing_positions summary
     = total_positions summary)%Z /\
    profitable_positions summary
      = Z.of_nat
          (length
             (List.filter (fun r => Py.gt (pnl_amount (data r)) 0) rows)).
Proof.
  intros Hrows. destruct rows as [|r rs]; [contradiction|].
  destruct (calculate_portfolio_summary_fields r rs)
    as (summary & rmax & rmin & Hsum & _ & _ & _ & _ & _ & _ & Htotal & _ & _
        & _ & Hprof & Hlose & _).
  exists summary. split; [exact Hsum|]. split; [exact Htotal|].
  rewrite Hprof, Hlose, Htotal.
  pose proof (count_positive_bounds (pnl_column (r :: rs))) as [Hlo Hhi].
  rewrite length_map in Hhi.
  split; [exact Hlo|]. split; [lia|]. split; [lia|].
  unfold Pd.count_positive. f_equal.
  clear. induction (r :: rs) as [|x l IH]; [reflexivity|].
  cbn [map List.filter]. destruct (Py.gt (pnl_amount (data x)) 0);
    cbn [length]; rewrite IH; reflexivity.
Qed.

Lemma calculate_portfolio_summary_counts_witness :
  Scenario.rows <> [] /\
  exists summary,
    calculate_portfolio_summary (Pd.Frame Scenario.rows) = Summary summary /\
    (profitable_positions summary + losing_positions summary = 3)%Z.
Proof.
  split; [discriminate|].
  destruct (calculate_portfolio_summary_counts Scenario.rows)
    as (summary & Hsum & Htotal & _ & _ & Hadd & _); [discriminate|].
  exists summary. split; [exact Hsum|]. rewrite Hadd, Htotal. reflexivity.
Defined.

(** X9. [max_gain_amount] and [max_loss_amount] of a table with rows are the
    largest and the smallest [pnl_amount]: numbers, never [NaN], that bound
    the P&L of every row and are the P&L of some row. *)
Theorem calculate_portfolio_summary_extremes (rows : list PnlRow) :
  rows <> [] ->
  exists summary hi lo,
    calculate_portfolio_summary (Pd.Frame rows) = Summary summary /\
    max_gain_amount summary = Pd.Finite hi /\
    max_loss_amount summary = Pd.Finite lo /\
    (forall r, In r rows -> lo <= pnl_amount (data r) <= hi) /\
    (exists r, In r rows /\ pnl_amount (data r) = hi) /\
    (exists r, In r rows /\ pnl_amount (data r) = lo).
Proof.
  intros Hrows. destruct rows as [|r rs]; [contradiction|].
  destruct (calculate_portfolio_summary_fields r rs)
    as (summary & rmax & rmin & Hsum & Hrmax & Hrmin & _ & _ & Hgain & Hloss
        & _).
  destruct (idxmax_first (pnl_amount (data r)) (pnl_column rs))
    as (hi & Hhi & Hmax & Hall & _).
  destruct (idxmin_first (pnl_amount (data r)) (pnl_column rs))
    as (lo & Hlo & Hmin & Hall' & _).
  change (pnl_amount (data r) :: pnl_column rs)
    with (pnl_column (r :: rs)) in *.
  rewrite nth_error_map, Hrmax in Hhi. injection Hhi as Hhi.
  rewrite nth_error_map, Hrmin in Hlo. injection Hlo as Hlo.
  exists summary, hi, lo. split; [exact Hsum|].
  split; [rewrite Hgain; exact Hmax|].
  split; [rewrite Hloss; exact Hmin|].
  split.
  - intros r' Hr'.
    assert (Hin : In (pnl_amount (data r')) (pnl_column (r :: rs)))
      by (apply (in_map (fun r => pnl_amount (data r))); exact Hr').
    split; [exact (Hall' _ Hin) | exact (Hall _ Hin)].
  - split.
    + exists rmax. split; [exact (nth_error_In _ _ Hrmax) | exact Hhi].
    + exists rmin. split; [exact (nth_error_In _ _ Hrmin) | exact Hlo].
Qed.

Lemma calculate_portfolio_summary_extremes_witness :
  Scenario.rows <> [] /\
  exists summary hi lo,
    calculate_portfolio_summary (Pd.Frame Scenario.rows) = Summary summary /\
    max_gain_amount summary = Pd.Finite hi /\
    max_loss_amount summary = Pd.Finite lo /\
    lo <= hi.
Proof.
  split; [discriminate|].
  destruct (calculate_portfolio_summary_extremes Scenario.rows)
    as (summary & hi & lo & Hsum & Hgain & Hloss & Hall & _ & _);
    [discriminate|].
  exists summary, hi, lo. split; [exact Hsum|]. split; [exact Hgain|].
  split; [exact Hloss|].
  destruct (Hall (hd (Build_PnlRow (calculate_pnl "" 0 0 0 0) "")
                    Scenario.rows)) as [H1 H2]; [left; reflexivity|].
  exact (Qle_trans _ _ _ H1 H2).
Defined.

(** X10. Ties go to the first row: [max_gain_ticker] is the ticker of the first
    row whose P&L is the largest, every row before it has a smaller P&L; and
    likewise [max_loss_ticker] for the smallest P&L. *)
Theorem calculate_portfolio_summary_first_extreme (rows : list PnlRow) :
  rows <> [] ->
  exists summary imax rmax imin rmin,
    calculate_portfolio_summary (Pd.Frame rows) = Summary summary /\
    nth_error rows imax = Some rmax /\
    max_gain_ticker summary = ticker (data rmax) /\
    max_gain_amount summary = Pd.Finite (pnl_amount (data rmax)) /\
    (forall j r, (j < imax)%nat -> nth_error rows j = Some r ->
                 pnl_amount (data r) < pnl_amount (data rmax)) /\
    nth_error rows imin = Some rmin /\
    max_loss_ticker summary = ticker (data rmin) /\
    max_loss_amount summary = Pd.Finite (pnl_amount (data rmin)) /\
    (forall j r, (j < imin)%nat -> nth_error rows j = Some r ->
                 pnl_amount (data rmin) < pnl_amount (data r)).
Proof.
  intros Hrows. destruct rows as [|r rs]; [contradiction|].
  destruct (calculate_portfolio_summary_fields r rs)
    as (summary & rmax & rmin & Hsum & Hrmax & Hrmin & Htmax & Htmin & Hgain
        & Hloss & _).
  destruct (idxmax_first (pnl_amount (data r)) (pnl_column rs))
    as (hi & Hhi & Hmax & _ & Hfirst).
  destruct (idxmin_first (pnl_amount (data r)) (pnl_column rs))
    as (lo & Hlo & Hmin & _ & Hfirst').
  change (pnl_amount (data r) :: pnl_column rs)
    with (pnl_column (r :: rs)) in *.
  rewrite nth_error_map, Hrmax in Hhi. injection Hhi as Hhi.
  rewrite nth_error_map, Hrmin in Hlo. injection Hlo as Hlo.
  subst hi lo.
  exists summary,
    (Pd.idxmax_from 1 0 (pnl_amount (data r)) (pnl_column rs)), rmax,
    (Pd.idxmin_from 1 0 (pnl_amount (data r)) (pnl_column rs)), rmin.
  split; [exact Hsum|]. split; [exact Hrmax|]. split; [exact Htmax|].
  split; [rewrite Hgain; exact Hmax|].
  split.
  { intros j r' Hj Hr'. apply (Hfirst j); [exact Hj|].
    rewrite nth_error_map, Hr'. reflexivity. }
  split; [exact Hrmin|]. split; [exact Htmin|].
  split; [rewrite Hloss; exact Hmin|].
  intros j r' Hj Hr'. apply (Hfirst' j); [exact Hj|].
  rewrite nth_error_map, Hr'. reflexivity.
Qed.

Lemma calculate_portfolio_summary_first_extreme_witness :
  Scenario.tied_rows <> [] /\
  exists summary imax rmax imin rmin,
    calculate_portfolio_summary (Pd.Frame Scenario.tied_rows)
      = Summary summary /\
    nth_error Scenario.tied_rows imax = Some rmax /\
    max_gain_ticker summary = ticker (data rmax) /\
    max_gain_amount summary = Pd.Finite (pnl_amount (data rmax)) /\
    (forall j r, (j < imax)%nat -> nth_error Scenario.tied_rows j = Some r ->
                 pnl_amount (data r) < pnl_amount (data rmax)) /\
    nth_error Scenario.tied_rows imin = Some rmin /\
    max_loss_ticker summary = ticker (data rmin) /\
    max_loss_amount summary = Pd.Finite (pnl_amount (data rmin)) /\
    (forall j r, (j < imin)%nat -> nth_error Scenario.tied_rows j = Some r ->
                 pnl_amount (data rmin) < pnl_amount (data r)).
Proof.
  split; [discriminate|].
  apply (calculate_portfolio_summary_first_extreme Scenario.tied_rows).
  discriminate.
Defined.

(** Of two rows with the largest P&L the first one is reported. *)
Example calculate_portfolio_summary_tie :
  match calculate_portfolio_summary (Pd.Frame Scenario.tied_rows) with
  | Summary summary =>
      max_gain_ticker summary = "7203.T"%string /\
      max_gain_amount summary = Pd.Finite 500000 /\
      max_loss_ticker summary = "6758.T"%string
  | EmptyDict => False
  end.
Proof. vm_compute. repeat split; reflexivity. Qed.

End SummaryProperties.

Section SummaryOfPortfolio.

Local Open Scope Q_scope.

Variable current_prices exchange_rates : gmap string Q.
Variable currency_mapping : gmap string string.

Local Abbreviation pnl_row :=
  (pnl_of_row current_prices exchange_rates currency_mapping).

Lemma sum_map_minus {A} (g h : A -> Q) (l : list A) :
  Pd.sum (map (fun a => g a - h a) l) == Pd.sum (map g l) - Pd.sum (map h l).
Proof.
  induction l as [|a l IH]; cbn [map]; [reflexivity|].
  rewrite !sum_cons, IH. ring.
Qed.

Lemma sum_map_opp {A} (g : A -> Q) (l : list A) :
  Pd.sum (map (fun a => - g a) l) == - Pd.sum (map g l).
Proof.
  induction l as [|a l IH]; cbn [map]; [reflexivity|].
  rewrite !sum_cons, IH. ring.
Qed.

Lemma sum_map_positive {A} (g : A -> Q) (l : list A) :
  l <> [] -> (forall a, In a l -> 0 < g a) -> 0 < Pd.sum (map g l).
Proof.
  intros Hl Hpos. destruct l as [|a l]; [contradiction|]. clear Hl.
  revert a Hpos. induction l as [|b l IH]; intros a Hpos; cbn [map].
  - rewrite sum_cons. cbn [Pd.sum fold_right].
    specialize (Hpos a (or_introl eq_refl)). lra.
  - rewrite sum_cons.
    assert (Ha : 0 < g a) by (apply Hpos; left; reflexivity).
    assert (Hrest : 0 < Pd.sum (map g (b :: l))).
    { apply IH. intros c Hc. apply Hpos. right. exact Hc. }
    cbn [map] in Hrest. lra.
Qed.

(** X6. The summary of the table of a non-empty portfolio is never [{}]; its
    cost basis is the sum of [AvgCostJPY * Shares] over the portfolio, and
    its total P&L is its total value less its cost basis. *)
Theorem calculate_portfolio_summary_of_portfolio
    (portfolio_df : list PortfolioRow) :
  portfolio_df <> [] ->
  exists summary,
    calculate_portfolio_summary
      (calculate_portfolio_pnl portfolio_df current_prices exchange_rates
         currency_mapping) = Summary summary /\
    total_positions summary = Z.of_nat (length portfolio_df) /\
    total_cost_basis_jpy summary
      == Pd.sum (map (fun row => AvgCostJPY row * Shares row) portfolio_df) /\
    total_pnl_amount_jpy summary
      == total_current_value_jpy summary - total_cost_basis_jpy summary.
Proof.
  intros Hne. destruct portfolio_df as [|row rest]; [contradiction|].
  rewrite calculate_portfolio_pnl_frame.
  destruct (calculate_portfolio_summary_fields (pnl_row row)
              (map pnl_row rest))
    as (summary & _ & _ & Hsum & _ & _ & _ & _ & _ & _ & Htotal & Hcost
        & Hvalue & Hpnl & _).
  change (pnl_row row :: map pnl_row rest)
    with (map pnl_row (row :: rest)) in *.
  exists summary. split; [exact Hsum|].
  split; [rewrite Htotal, length_map; reflexivity|].
  rewrite Hcost, Hvalue, Hpnl.
  rewrite !map_map. split.
  - apply sum_map_ext. intros a _. reflexivity.
  - rewrite <- sum_map_minus. apply sum_map_ext. intros a _. reflexivity.
Qed.

(** X7. When no position has a quote and every position cost something, the
    portfolio is a total loss: the total value is [0], no position is
    profitable, [win_rate] is [0] and [overall_pnl_percentage] is [-100]. *)
Theorem calculate_portfolio_summary_no_quotes
    (portfolio_df : list PortfolioRow) :
  portfolio_df <> [] ->
  (forall row, In row portfolio_df ->
     current_prices !! Ticker row = None /\ 0 < AvgCostJPY row * Shares row) ->
  exists summary,
    calculate_portfolio_summary
      (calculate_portfolio_pnl portfolio_df current_prices exchange_rates
         currency_mapping) = Summary summary /\
    total_current_value_jpy summary == 0 /\
    profitable_positions summary = 0%Z /\
    win_rate summary == 0 /\
    overall_pnl_percentage summary == - (100).
Proof.
  intros Hne Hrows. destruct portfolio_df as [|row rest]; [contradiction|].
  rewrite calculate_portfolio_pnl_frame.
  destruct (calculate_portfolio_summary_fields (pnl_row row)
              (map pnl_row rest))
    as (summary & _ & _ & Hsum & _ & _ & _ & _ & _ & _ & _ & Hcost
        & Hvalue & Hpnl & Hprof & _ & Hover & Hwin).
  change (pnl_row row :: map pnl_row rest)
    with (map pnl_row (row :: rest)) in *.
  rewrite !map_map in *.
  set (portfolio_df := row :: rest) in *.
  assert (Hval : forall a, In a portfolio_df ->
            current_value_jpy (data (pnl_row a)) == 0).
  { intros a Ha. destruct (Hrows a Ha) as [Hnone _].
    unfold pnl_of_row. rewrite Hnone. cbn. ring. }
  assert (Hloss : forall a, In a portfolio_df ->
            pnl_amount (data (pnl_row a)) == - (AvgCostJPY a * Shares a)).
  { intros a Ha. destruct (Hrows a Ha) as [Hnone _].
    unfold pnl_of_row. rewrite Hnone. cbn. ring. }
  assert (Hcostpos :
            0 < Pd.sum (map (fun a => cost_basis_jpy (data (pnl_row a)))
                          portfolio_df)).
  { apply sum_map_positive; [discriminate|].
    intros a Ha. exact (proj2 (Hrows a Ha)). }
  assert (Hcount :
            Pd.count_positive
              (map (fun a => pnl_amount (data (pnl_row a))) portfolio_df)
            = 0%Z).
  { unfold Pd.count_positive.
    rewrite <- (map_map pnl_row (fun r => pnl_amount (data r))).
    assert (E : forall l, (forall a, In a l -> In a portfolio_df) ->
              List.filter (fun x => Py.gt x 0)
                (map (fun r => pnl_amount (data r)) (map pnl_row l)) = []).
    { induction l as [|a l IH]; intros Hl; [reflexivity|].
      cbn [map List.filter].
      assert (G : Py.gt (pnl_amount (data (pnl_row a))) 0 = false).
      { apply gt_false. rewrite (Hloss a) by (apply Hl; left; reflexivity).
        pose proof (proj2 (Hrows a (Hl a (or_introl eq_refl)))). lra. }
      rewrite G. apply IH. intros b Hb. apply Hl. right. exact Hb. }
    rewrite (E portfolio_df) by auto. reflexivity. }
  exists summary. split; [exact Hsum|].
  split.
  { rewrite Hvalue, (sum_map_ext _ (fun _ => 0)) by exact Hval.
    apply sum_map_zero. }
  split; [rewrite Hprof; exact Hcount|].
  split.
  { rewrite Hwin, Hcount. unfold Py.float_of_int, Qdiv. ring. }
  rewrite Hover. pose proof Hcostpos as G. apply gt_true in G.
  rewrite G.
  rewrite (sum_map_ext (fun a => pnl_amount (data (pnl_row a)))
             (fun a => - cost_basis_jpy (data (pnl_row a))))
    by (intros a Ha; rewrite (Hloss a Ha); reflexivity).
  rewrite sum_map_opp. field.
  intros Z. rewrite Z in Hcostpos. discriminate Hcostpos.
Qed.

End SummaryOfPortfolio.

Lemma calculate_portfolio_summary_of_portfolio_witness :
  Scenario.mixed_portfolio <> [] /\
  exists summary,
    calculate_portfolio_summary
      (calculate_portfolio_pnl Scenario.mixed_portfolio Scenario.mixed_prices
         Scenario.mixed_rates Scenario.mixed_currencies) = Summary summary /\
    total_positions summary = 4%Z /\
    (total_cost_basis_jpy summary == 650000)%Q.
Proof.
  split; [discriminate|].
  destruct (calculate_portfolio_summary_of_portfolio Scenario.mixed_prices
              Scenario.mixed_rates Scenario.mixed_currencies
              Scenario.mixed_portfolio)
    as (summary & Hsum & Htotal & Hcost & _); [discriminate|].
  exists summary. split; [exact Hsum|]. split; [exact Htotal|].
  rewrite Hcost. reflexivity.
Defined.

Lemma calculate_portfolio_summary_no_quotes_witness :
  Scenario.mixed_portfolio <> [] /\
  exists summary,
    calculate_portfolio_summary
      (calculate_portfolio_pnl Scenario.mixed_portfolio ∅
         Scenario.mixed_rates Scenario.mixed_currencies) = Summary summary /\
    (win_rate summary == 0)%Q /\
    (overall_pnl_percentage summary == - (100))%Q.
Proof.
  split; [discriminate|].
  destruct (calculate_portfolio_summary_no_quotes ∅
              Scenario.mixed_rates Scenario.mixed_currencies
              Scenario.mixed_portfolio)
    as (summary & Hsum & _ & _ & Hwin & Hover); [discriminate| |].
  - intros row Hrow. split; [apply lookup_empty|].
    repeat (destruct Hrow as [<- | Hrow]; [reflexivity|]). destruct Hrow.
  - exists summary. split; [exact Hsum|]. split; [exact Hwin | exact Hover].
Defined.

(** * Further properties of the allocation classifier *)

Section RegionLabels.

(** [classify_region_by_country] returns one of the six labels. *)
Lemma classify_region_by_country_label (country : option string) :
  In (CountryFetcher.classify_region_by_country country)
    CountryFetcher.region_labels.
Proof.
  unfold CountryFetcher.classify_region_by_country,
    CountryFetcher.region_labels.
  destruct country as [c|]; [|cbn; tauto].
  destruct (negb (Py.truthy_str c)); [cbn; tauto|]. cbv zeta.
  repeat match goal with
         | |- context [if ?b then _ else _] => destruct b; [cbn; tauto|]
         end.
  cbn; tauto.
Qed.

Lemma suffix_region_label (t : string) :
  In (suffix_region t) CountryFetcher.region_labels.
Proof.
  unfold suffix_region, CountryFetcher.region_labels.
  repeat match goal with
         | |- context [if ?b then _ else _] => destruct b; [cbn; tauto|]
         end.
  cbn; tauto.
Qed.

Lemma get_region_for_ticker_label
    (ticker_countries : option (gmap string (option string))) (t : string) :
  In (get_region_for_ticker ticker_countries t) CountryFetcher.region_labels.
Proof.
  unfold get_region_for_ticker.
  destruct ticker_countries as [countries|]; [|apply suffix_region_label].
  destruct (Py.truthy_dict countries); [|apply suffix_region_label].
  destruct (countries !! t);
    [apply classify_region_by_country_label | apply suffix_region_label].
Qed.

End RegionLabels.

Section AllocationProperties.

Local Open Scope Q_scope.

Variable ticker_countries : option (gmap string (option string)).

Local Abbreviation country := (row_country ticker_countries).
Local Abbreviation allocation rows :=
  (Pd.records (calculate_sector_allocation (Pd.Frame rows) ticker_countries)).

Lemma allocation_aggs (rows : list PnlRow) :
  map Region.agg (allocation rows)
  = map (aggregate country rows) (Pd.group_keys (map country rows)).
Proof.
  destruct (calculate_sector_allocation_frame ticker_countries rows)
    as (regions & Hframe & Hagg & _).
  rewrite Hframe. exact Hagg.
Qed.

Lemma allocation_countries (rows : list PnlRow) :
  map (fun a => Region.country (Region.agg a)) (allocation rows)
  = Pd.group_keys (map country rows).
Proof.
  rewrite <- (map_map Region.agg Region.country), allocation_aggs, map_map.
  cbn [aggregate Region.country]. apply map_id.
Qed.

(** X11. The table of regions is sorted by region name, each region appears
    once, every name is one of the six labels of the classifier, so that the
    table has at most six rows, and a name is in the table exactly when some
    position is assigned to it. *)
Theorem calculate_sector_allocation_regions (rows : list PnlRow) :
  let names :=
    map (fun a => Region.country (Region.agg a)) (allocation rows) in
  StronglySorted Pd.key_lt names /\
  List.NoDup names /\
  (forall name, In name names -> In name CountryFetcher.region_labels) /\
  (length (allocation rows) <= 6)%nat /\
  (forall name,
      In name names <->
      exists r, In r rows /\
        get_region_for_ticker ticker_countries (ticker (data r)) = name).
Proof.
  cbv zeta. rewrite allocation_countries.
  assert (Hlabels : forall name,
             In name (Pd.group_keys (map country rows)) ->
             In name CountryFetcher.region_labels).
  { intros name H. apply (proj1 (group_keys_In _ _)) in H.
    apply in_map_iff in H as (r & <- & _).
    apply get_region_for_ticker_label. }
  split; [apply group_keys_sorted|].
  split; [apply group_keys_NoDup|].
  split; [exact Hlabels|].
  split.
  - rewrite <- (length_map (fun a => Region.country (Region.agg a))),
      allocation_countries.
    change 6%nat with (length CountryFetcher.region_labels).
    apply NoDup_incl_length; [apply group_keys_NoDup | exact Hlabels].
  - intros name. rewrite group_keys_In, in_map_iff.
    split; intros (r & H1 & H2); exists r; split; assumption.
Qed.

Lemma sum_map_const_one {A} (l : list A) :
  Pd.sum (map (fun _ => 1) l) == inject_Z (Z.of_nat (length l)).
Proof.
  induction l as [|a l IH]; [reflexivity|].
  cbn [map length]. rewrite sum_cons, IH, Nat2Z.inj_succ.
  unfold Z.succ. rewrite inject_Z_plus. ring.
Qed.

Lemma sum_map_inject_Z {A} (g : A -> Z) (l : list A) :
  Pd.sum (map (fun a => inject_Z (g a)) l)
  == inject_Z (fold_right Z.add 0%Z (map g l)).
Proof.
  induction l as [|a l IH]; [reflexivity|].
  cbn [map fold_right]. rewrite sum_cons, IH, inject_Z_plus. reflexivity.
Qed.

(** X12. Nothing is lost or counted twice by the grouping: the values, the cost
    bases and the P&L of the regions add up to those of the positions, the
    position counts add up to the number of positions, and every region of the
    table holds at least one position. *)
Theorem calculate_sector_allocation_conservation (rows : list PnlRow) :
  let aggs := map Region.agg (allocation rows) in
  Pd.sum (map Region.current_value_jpy aggs)
    == Pd.sum (map (fun r => current_value_jpy (data r)) rows) /\
  Pd.sum (map Region.cost_basis_jpy aggs)
    == Pd.sum (map (fun r => cost_basis_jpy (data r)) rows) /\
  Pd.sum (map Region.pnl_amount aggs)
    == Pd.sum (map (fun r => pnl_amount (data r)) rows) /\
  fold_right Z.add 0%Z (map Region.position_count aggs)
    = Z.of_nat (length rows) /\
  forall a, In a aggs -> (1 <= Region.position_count a)%Z.
Proof.
  cbv zeta. rewrite allocation_aggs.
  assert (Hnd := group_keys_NoDup (map country rows)).
  assert (Hcover : forall r, In r rows ->
             In (country r) (Pd.group_keys (map country rows))).
  { intros r Hr. apply group_keys_In. apply in_map. exact Hr. }
  split; [|split; [|split; [|split]]].
  - rewrite map_map. cbn [aggregate Region.current_value_jpy].
    apply sum_groups; assumption.
  - rewrite map_map. cbn [aggregate Region.cost_basis_jpy].
    apply sum_groups; assumption.
  - rewrite map_map. cbn [aggregate Region.pnl_amount].
    apply sum_groups; assumption.
  - apply inject_Z_injective.
    rewrite <- sum_map_inject_Z, map_map.
    cbn [aggregate Region.position_count].
    rewrite <- sum_map_const_one.
    rewrite <- (sum_groups country (fun _ => 1) rows _ Hnd Hcover).
    apply sum_map_ext. intros k _.
    rewrite <- sum_map_const_one. reflexivity.
  - intros a Ha. apply in_map_iff in Ha as (k & <- & Hk).
    cbn [aggregate Region.position_count].
    apply (proj1 (group_keys_In _ _)) in Hk.
    apply in_map_iff in Hk as (r & Hkey & Hr).
    assert (Hmem : In r (Pd.group country k rows)).
    { apply filter_In. split; [exact Hr|]. apply String.eqb_eq. exact Hkey. }
    destruct (Pd.group country k rows); [destruct Hmem|].
    cbn [length]. lia.
Qed.

End AllocationProperties.

Section AllocationPercentages.

Local Open Scope Q_scope.

Variable ticker_countries : option (gmap string (option string)).

Local Abbreviation country := (row_country ticker_countries).
Local Abbreviation allocation rows :=
  (Pd.records (calculate_sector_allocation (Pd.Frame rows) ticker_countries)).
Local Abbreviation value_column :=
  (map (fun r => current_value_jpy (data r))).

Lemma sum_group_bounds {A} (key : A -> string) (g : A -> Q) (k : string)
    (rows : list A) :
  (forall r, In r rows -> 0 <= g r) ->
  0 <= Pd.sum (map g (Pd.group key k rows)) <= Pd.sum (map g rows).
Proof.
  induction rows as [|r rows IH]; intros Hpos.
  - cbn. split; apply Qle_refl.
  - assert (Hr : 0 <= g r) by (apply Hpos; left; reflexivity).
    destruct IH as [Hlo Hhi];
      [intros r' Hr'; apply Hpos; right; exact Hr'|].
    unfold Pd.group in *. cbn [List.filter map].
    destruct (String.eqb (key r) k); cbn [map]; rewrite ?sum_cons;
      split; lra.
Qed.

(** The fields of a row of the table, from the rows of its region. *)
Lemma allocation_row (rows : list PnlRow) (a : Region.Row) :
  In a (allocation rows) ->
  exists k,
    Region.current_value_jpy (Region.agg a)
      = Pd.sum (value_column (Pd.group country k rows)) /\
    exists total,
      total == Pd.sum (value_column rows) /\
      Region.allocation_percentage a
        = (if Py.gt total 0
           then Region.current_value_jpy (Region.agg a) / total * 100
           else 0) /\
      Region.pnl_percentage a
        = Pd.fillna 0
            (Pd.mul_pos
               (Pd.div (Region.pnl_amount (Region.agg a))
                  (Region.cost_basis_jpy (Region.agg a))) 100).
Proof.
  destruct (calculate_sector_allocation_frame ticker_countries rows)
    as (regions & Hframe & Hagg & Hcols).
  rewrite Hframe. cbn [Pd.records]. intros Ha.
  assert (Hin : In (Region.agg a) (map Region.agg regions))
    by (apply in_map; exact Ha).
  rewrite Hagg in Hin. apply in_map_iff in Hin as (k & Hk & _).
  exists k. split; [rewrite <- Hk; reflexivity|].
  eexists. split; [apply (total_value_regions ticker_countries rows)|].
  exact (Hcols a Ha).
Qed.

(** X13. When the positions are worth nothing in total, every region has an
    allocation of [0]; when no position has a negative value and the total is
    positive, the allocation of every region lies between [0] and [100]. *)
Theorem calculate_sector_allocation_percentage_range (rows : list PnlRow) :
  (Pd.sum (value_column rows) <= 0 ->
   forall a, In a (allocation rows) -> Region.allocation_percentage a = 0) /\
  ((forall r, In r rows -> 0 <= current_value_jpy (data r)) ->
   0 < Pd.sum (value_column rows) ->
   forall a, In a (allocation rows) ->
     0 <= Region.allocation_percentage a <= 100).
Proof.
  split.
  - intros Htotal a Ha.
    destruct (allocation_row rows a Ha) as (k & _ & total & Ht & -> & _).
    assert (G : Py.gt total 0 = false)
      by (apply gt_false; rewrite Ht; exact Htotal).
    rewrite G. reflexivity.
  - intros Hpos Htotal a Ha.
    destruct (allocation_row rows a Ha) as (k & Hv & total & Ht & -> & _).
    assert (Hgt : 0 < total) by (rewrite Ht; exact Htotal).
    pose proof Hgt as G. apply gt_true in G. rewrite G, Hv.
    destruct (sum_group_bounds country
                (fun r => current_value_jpy (data r)) k rows Hpos)
      as [Hlo Hhi].
    rewrite <- Ht in Hhi.
    set (v := Pd.sum (value_column (Pd.group country k rows))) in *.
    assert (Hq : 0 <= v / total <= 1).
    { split.
      - apply Qle_shift_div_l; [exact Hgt | lra].
      - apply Qle_shift_div_r; [exact Hgt | lra]. }
    split; lra.
Qed.

(** X14. The percentage of a region is never [NaN]; it is a number exactly when
    the cost basis of the region is not zero or its P&L is zero, and
    [±inf] otherwise. *)
Theorem calculate_sector_allocation_pnl_percentage (rows : list PnlRow)
    (a : Region.Row) :
  In a (allocation rows) ->
  Region.pnl_percentage a <> Pd.NaN /\
  (Pd.is_finite (Region.pnl_percentage a) = true <->
   ~ Region.cost_basis_jpy (Region.agg a) == 0 \/
   Region.pnl_amount (Region.agg a) == 0) /\
  (~ Region.cost_basis_jpy (Region.agg a) == 0 ->
   Region.pnl_percentage a
   = Pd.Finite (Region.pnl_amount (Region.agg a)
                / Region.cost_basis_jpy (Region.agg a) * 100)).
Proof.
  intros Ha.
  destruct (allocation_row rows a Ha) as (k & _ & total & _ & _ & ->).
  set (pnl := Region.pnl_amount (Region.agg a)).
  set (cost := Region.cost_basis_jpy (Region.agg a)).
  unfold Pd.div.
  destruct (Qeq_bool cost 0) eqn:E.
  - apply Qeq_bool_iff in E.
    destruct (Py.gt pnl 0) eqn:G1; [|destruct (Py.gt 0 pnl) eqn:G2].
    + apply gt_true in G1. cbn. split; [discriminate|]. split.
      * split; [discriminate|]. intros [H | H]; [contradiction|].
        rewrite H in G1. discriminate G1.
      * intros H. contradiction.
    + apply gt_true in G2. cbn. split; [discriminate|]. split.
      * split; [discriminate|]. intros [H | H]; [contradiction|].
        rewrite H in G2. discriminate G2.
      * intros H. contradiction.
    + apply gt_false in G1, G2. cbn. split; [discriminate|]. split.
      * split; [|reflexivity]. intros _. right. lra.
      * intros H. contradiction.
  - apply Qeq_bool_neq in E. cbn. split; [discriminate|]. split.
    + split; [|reflexivity]. intros _. left. exact E.
    + intros _. reflexivity.
Qed.

(** X15. The table of regions is empty exactly when the P&L table is: without
    columns the [KeyError] of the [try] block gives the empty frame. *)
Theorem calculate_sector_allocation_empty (pnl_df : Pd.DataFrame PnlRow) :
  Pd.empty (calculate_sector_allocation pnl_df ticker_countries)
  = Pd.empty pnl_df.
Proof.
  destruct pnl_df as [|rows]; [reflexivity|].
  destruct rows as [|r rows]; [reflexivity|].
  assert (H : map (fun a => Region.country (Region.agg a))
                (allocation (r :: rows)) <> []).
  { rewrite allocation_countries. intros E.
    assert (Hin : In (country r) (Pd.group_keys (map country (r :: rows))))
      by (apply group_keys_In; left; reflexivity).
    rewrite E in Hin. destruct Hin. }
  destruct (calculate_sector_allocation_frame ticker_countries (r :: rows))
    as (regions & Hframe & _).
  rewrite Hframe in H |- *. cbn [Pd.records] in H.
  destruct regions; [contradiction | reflexivity].
Qed.

End AllocationPercentages.

Lemma calculate_sector_allocation_percentage_range_witness :
  (forall r, In r Scenario.rows -> 0 <= current_value_jpy (data r))%Q /\
  (0 < Pd.sum (map (fun r => current_value_jpy (data r)) Scenario.rows))%Q /\
  forall a,
    In a (Pd.records
            (calculate_sector_allocation (Pd.Frame Scenario.rows)
               Scenario.countries)) ->
    (0 <= Region.allocation_percentage a <= 100)%Q.
Proof.
  assert (Hpos : forall r, In r Scenario.rows ->
            (0 <= current_value_jpy (data r))%Q).
  { intros r Hr.
    repeat (destruct Hr as [<- | Hr]; [discriminate|]). destruct Hr. }
  assert (Htotal :
            (0 < Pd.sum (map (fun r => current_value_jpy (data r))
                           Scenario.rows))%Q) by reflexivity.
  split; [exact Hpos|]. split; [exact Htotal|].
  exact (proj2 (calculate_sector_allocation_percentage_range
                  Scenario.countries Scenario.rows) Hpos Htotal).
Defined.

Lemma calculate_sector_allocation_pnl_percentage_witness :
  exists a,
    In a (Pd.records
            (calculate_sector_allocation Scenario.gift_pnl_df None)) /\
    Region.pnl_percentage a <> Pd.NaN /\
    Pd.is_finite (Region.pnl_percentage a) = false.
Proof.
  eexists. split; [left; reflexivity|].
  split.
  - apply (calculate_sector_allocation_pnl_percentage None
             (Pd.records Scenario.gift_pnl_df)).
    left. reflexivity.
  - vm_compute. reflexivity.
Defined.

(** * Further properties of the country classifier *)

Section Classifier.

Import CountryFetcher.

Lemma upper_char_idempotent (c : ascii) :
  Py.upper_char (Py.upper_char c) = Py.upper_char c.
Proof. destruct c as [[] [] [] [] [] [] [] []]; reflexivity. Qed.

Lemma upper_idempotent (s : string) : Py.upper (Py.upper s) = Py.upper s.
Proof.
  induction s as [|c s IH]; [reflexivity|].
  cbn [Py.upper]. rewrite upper_char_idempotent, IH. reflexivity.
Qed.

Lemma upper_truthy (s : string) :
  Py.truthy_str (Py.upper s) = Py.truthy_str s.
Proof. destruct s; reflexivity. Qed.

Lemma upper_app (s t : string) :
  Py.upper (s +:+ t) = Py.upper s +:+ Py.upper t.
Proof.
  induction s as [|c s IH]; [reflexivity|].
  change (String c s +:+ t) with (String c (s +:+ t)).
  cbn [Py.upper]. rewrite IH. reflexivity.
Qed.

Lemma rstrip_space (s : string) : Py.rstrip (s +:+ " ") = Py.rstrip s.
Proof.
  induction s as [|c s IH]; [reflexivity|].
  change (String c s +:+ " ") with (String c (s +:+ " ")).
  cbn [Py.rstrip]. rewrite IH. reflexivity.
Qed.

Lemma strip_space_r (s : string) : Py.strip (s +:+ " ") = Py.strip s.
Proof.
  unfold Py.strip. induction s as [|c s IH]; [reflexivity|].
  change (String c s +:+ " ") with (String c (s +:+ " ")).
  cbn [Py.lstrip]. destruct (Py.isspace c); [exact IH|].
  apply (rstrip_space (String c s)).
Qed.

Lemma strip_space_l (s : string) : Py.strip (String " " s) = Py.strip s.
Proof. reflexivity. Qed.

(** The region of a country, from its normalised name. *)
Lemma classify_region_by_country_normal (c : string) :
  Py.truthy_str c = true ->
  classify_region_by_country (Some c) =
  let country := Py.strip (Py.upper c) in
  if Py.in_list country ["JAPAN"] then JAPAN
  else if Py.in_list country ["UNITED STATES"; "USA"; "US"] then US
  else if Py.in_list country european_countries then EUROPE
  else if Py.in_list country asia_pacific_countries then ASIA_PACIFIC
  else if Py.in_list country ["CANADA"] then NORTH_AMERICA_OTHER
  else OTHER.
Proof.
  intros H. unfold classify_region_by_country. rewrite H. reflexivity.
Qed.

Lemma classify_region_by_country_blank :
  classify_region_by_country (Some " ") = classify_region_by_country (Some "").
Proof. vm_compute. reflexivity. Qed.

(** X16. The classifier ignores the case of ASCII letters and the spaces around
    the name: a country name, the same name in upper case and the same name
    with a space before or after it are classified alike. *)
Theorem classify_region_by_country_insensitive (c : string) :
  classify_region_by_country (Some (Py.upper c))
    = classify_region_by_country (Some c) /\
  classify_region_by_country (Some (" " +:+ c))
    = classify_region_by_country (Some c) /\
  classify_region_by_country (Some (c +:+ " "))
    = classify_region_by_country (Some c).
Proof.
  destruct c as [|a c].
  - split; [reflexivity|]. split; exact classify_region_by_country_blank.
  - split; [|split].
    + rewrite !classify_region_by_country_normal by reflexivity.
      cbv zeta. rewrite upper_idempotent. reflexivity.
    + rewrite !classify_region_by_country_normal by reflexivity.
      reflexivity.
    + rewrite !classify_region_by_country_normal by reflexivity.
      cbv zeta. rewrite upper_app.
      change (Py.upper " ") with " ". rewrite strip_space_r. reflexivity.
Qed.

Lemma in_list_In (x : string) (l : list string) :
  Py.in_list x l = true <-> In x l.
Proof.
  unfold Py.in_list. rewrite existsb_exists. split.
  - intros (y & Hy & E). apply String.eqb_eq in E. subst y. exact Hy.
  - intros H. exists x. split; [exact H | apply String.eqb_refl].
Qed.

(** The tables of the classifier do not overlap. *)
Lemma country_tables_disjoint (x : string) :
  (In x european_countries ->
   Py.in_list x ["JAPAN"] = false /\
   Py.in_list x ["UNITED STATES"; "USA"; "US"] = false) /\
  (In x asia_pacific_countries ->
   Py.in_list x ["JAPAN"] = false /\
   Py.in_list x ["UNITED STATES"; "USA"; "US"] = false /\
   Py.in_list x european_countries = false) /\
  (In x ["UNITED STATES"; "USA"; "US"] -> Py.in_list x ["JAPAN"] = false) /\
  (x = "CANADA" ->
   Py.in_list x ["JAPAN"] = false /\
   Py.in_list x ["UNITED STATES"; "USA"; "US"] = false /\
   Py.in_list x european_countries = false /\
   Py.in_list x asia_pacific_countries = false).
Proof.
  split; [|split; [|split]].
  - intros H.
    repeat (destruct H as [<- | H]; [split; vm_compute; reflexivity|]).
    destruct H.
  - intros H.
    repeat (destruct H as [<- | H];
            [split; [|split]; vm_compute; reflexivity|]).
    destruct H.
  - intros H.
    repeat (destruct H as [<- | H]; [vm_compute; reflexivity|]).
    destruct H.
  - intros ->. repeat split; vm_compute; reflexivity.
Qed.

(** X17. Which countries give which region, for a country name written in
    ASCII: the country is classified by the table that lists its normalised
    name (in upper case, without the white space around it), and only Japan
    is ["日本"] and only Canada is ["北米（その他）"]. *)
Theorem classify_region_by_country_tables (country : option string) :
  (forall c, country = Some c -> Py.isascii c = true) ->
  let region := classify_region_by_country country in
  let named l :=
    exists c, country = Some c /\ In (Py.strip (Py.upper c)) l in
  (region = "日本" <-> named ["JAPAN"]) /\
  (region = "米国" <-> named ["UNITED STATES"; "USA"; "US"]) /\
  (region = "欧州" <-> named european_countries) /\
  (region = "アジア太平洋" <-> named asia_pacific_countries) /\
  (region = "北米（その他）" <-> named ["CANADA"]).
Proof.
  intros _. cbv zeta.
  assert (Hempty : forall l, In (Py.strip (Py.upper "")) l ->
            In "" l) by (intros l H; exact H).
  destruct country as [c|].
  2:{ repeat split; try (intros H; discriminate H);
        intros (c & H & _); discriminate H. }
  destruct c as [|a c].
  { repeat split; try (intros H; discriminate H);
      intros (c & H & Hin); injection H as <-;
      cbn in Hin; repeat (destruct Hin as [Hin | Hin]; [discriminate Hin|]);
      destruct Hin. }
  rewrite classify_region_by_country_normal by reflexivity. cbv zeta.
  set (n := Py.strip (Py.upper (String a c))).
  pose proof (country_tables_disjoint n) as (Heu & Hap & Hus & Hca).
  assert (Hnamed : forall l,
            (exists c', Some (String a c) = Some c' /\
                        In (Py.strip (Py.upper c')) l) <-> In n l).
  { intros l. split.
    - intros (c' & E & H). injection E as <-. exact H.
    - intros H. exists (String a c). split; [reflexivity | exact H]. }
  rewrite !Hnamed. rewrite <- !in_list_In.
  destruct (Py.in_list n ["JAPAN"]) eqn:E1.
  { apply in_list_In in E1. destruct E1 as [<- | []].
    repeat split; intros H; first [reflexivity | discriminate H]. }
  destruct (Py.in_list n ["UNITED STATES"; "USA"; "US"]) eqn:E2.
  { pose proof (proj1 (in_list_In _ _) E2) as H2.
    repeat split; intros H; try reflexivity; try discriminate H.
    - destruct (Heu (proj1 (in_list_In _ _) H)) as [_ H']. congruence.
    - destruct (Hap (proj1 (in_list_In _ _) H)) as (_ & H' & _). congruence.
    - apply in_list_In in H. destruct H as [<- | []].
      vm_compute in E2. discriminate E2. }
  destruct (Py.in_list n european_countries) eqn:E3.
  { repeat split; intros H; try reflexivity; try discriminate H.
    - destruct (Hap (proj1 (in_list_In _ _) H)) as (_ & _ & H'). congruence.
    - apply in_list_In in H. destruct H as [<- | []].
      vm_compute in E3. discriminate E3. }
  destruct (Py.in_list n asia_pacific_countries) eqn:E4.
  { repeat split; intros H; try reflexivity; try discriminate H.
    apply in_list_In in H. destruct H as [<- | []].
    vm_compute in E4. discriminate E4. }
  destruct (Py.in_list n ["CANADA"]) eqn:E5;
    repeat split; intros H; try reflexivity; discriminate H.
Qed.

End Classifier.

(** * Properties of the country lookup *)

Section CountryLookup.

Import CountryFetcher.

Variable info_country : string -> Py.result (option string).

Local Abbreviation fetched := (get_multiple_ticker_countries info_country).

(** [get_ticker_country] gives a country only for a lookup that succeeds
    with a non-empty name. *)
Lemma get_ticker_country_some (t c : string) :
  get_ticker_country info_country t = Some c <->
  info_country t = Py.ret (Some c) /\ c <> "".
Proof.
  unfold get_ticker_country, Py.try_except, Py.bind, Py.ret.
  destruct (info_country t) as [e | [c'|]].
  - split; [discriminate | intros [H _]; discriminate H].
  - destruct c' as [|a c'']; cbn.
    + split; [discriminate|]. intros [H Hne]. injection H as <-.
      contradiction.
    + split.
      * intros H. injection H as <-. split; [reflexivity | discriminate].
      * intros [H _]. injection H as <-. reflexivity.
  - split; [discriminate | intros [H _]; discriminate H].
Qed.

Lemma fold_countries_lookup (tickers : list string)
    (countries : gmap string (option string)) (t : string) :
  fold_left
    (fun countries ticker =>
       Py.try_except
         (Py.ret
            (<[ticker := get_ticker_country info_country ticker]> countries))
         (fun _ => <[ticker := None]> countries))
    tickers countries !! t
  = if In_dec string_dec t tickers
    then Some (get_ticker_country info_country t)
    else countries !! t.
Proof.
  revert countries. induction tickers as [|a tickers IH]; intros countries.
  - reflexivity.
  - cbn [fold_left Py.try_except Py.ret]. rewrite IH.
    destruct (In_dec string_dec t tickers) as [Hin | Hnot];
      destruct (In_dec string_dec t (a :: tickers)) as [Hin' | Hnot'];
      try reflexivity.
    + exfalso. apply Hnot'. right. exact Hin.
    + destruct Hin' as [-> | Hin']; [|contradiction].
      apply lookup_insert_eq.
    + apply lookup_insert_ne. intros ->. apply Hnot'. left. reflexivity.
Qed.

(** X18. The dict of [get_multiple_ticker_countries] has exactly the requested
    tickers as keys; the value of a ticker is the country found for it, or
    [None] when the lookup failed or gave no name; a value is never the empty
    string. *)
Theorem get_multiple_ticker_countries_lookup (tickers : list string)
    (t : string) :
  (In t tickers ->
   fetched tickers !! t = Some (get_ticker_country info_country t)) /\
  (~ In t tickers -> fetched tickers !! t = None) /\
  (forall c, fetched tickers !! t = Some (Some c) ->
             info_country t = Py.ret (Some c) /\ c <> "") /\
  (fetched tickers !! t = Some None ->
   In t tickers /\
   (info_country t = Py.ret (Some "") \/ info_country t = Py.ret None \/
    exists e, info_country t = Py.raise e)).
Proof.
  unfold get_multiple_ticker_countries. rewrite fold_countries_lookup.
  destruct (In_dec string_dec t tickers) as [Hin | Hnot].
  - split; [reflexivity|]. split; [contradiction|]. split.
    + intros c H. injection H as H. apply get_ticker_country_some. exact H.
    + intros H. injection H as H. split; [exact Hin|].
      unfold get_ticker_country, Py.try_except, Py.bind, Py.ret in H.
      destruct (info_country t) as [e | [[|a c]|]].
      * right. right. exists e. reflexivity.
      * left. reflexivity.
      * discriminate H.
      * right. left. reflexivity.
  - rewrite lookup_empty.
    split; [contradiction|]. split; [reflexivity|].
    split; [intros c H; discriminate H | intros H; discriminate H].
Qed.

(** X19. With the dict of [get_multiple_ticker_countries], a requested ticker is
    always classified by its country and never by its suffix: a ticker whose
    lookup failed or gave no name is put in ["その他"], whatever its
    suffix. *)
Theorem get_region_for_ticker_fetched (tickers : list string) (t : string) :
  In t tickers ->
  get_region_for_ticker (Some (fetched tickers)) t
    = classify_region_by_country (get_ticker_country info_country t) /\
  (get_ticker_country info_country t = None ->
   get_region_for_ticker (Some (fetched tickers)) t = "その他").
Proof.
  intros Hin. rewrite get_region_for_ticker_unfold.
  unfold get_multiple_ticker_countries. rewrite fold_countries_lookup.
  destruct (In_dec string_dec t tickers) as [_ | Hnot]; [|contradiction].
  split; [reflexivity|]. intros ->. reflexivity.
Qed.

(** X20. The region shown in the detail table is the region of the allocation
    table for every key of the country dict. For a ticker that is not a key
    the detail table shows ["取得失敗"] and ["その他"], while the allocation
    table uses the suffix of the ticker. *)
Theorem get_country_info_region
    (ticker_countries : gmap string (option string)) (t : string) :
  (forall country,
      ticker_countries !! t = Some country ->
      snd (App.get_country_info ticker_countries t)
      = get_region_for_ticker (Some ticker_countries) t) /\
  (ticker_countries !! t = None ->
   App.get_country_info ticker_countries t = ("取得失敗", "その他") /\
   get_region_for_ticker (Some ticker_countries) t = suffix_region t) /\
  (fst (App.get_country_info ticker_countries t) = "取得失敗" <->
   ticker_countries !! t = None \/ ticker_countries !! t = Some None \/
   ticker_countries !! t = Some (Some "") \/
   ticker_countries !! t = Some (Some "取得失敗")).
Proof.
  unfold App.get_country_info. rewrite get_region_for_ticker_unfold.
  destruct (ticker_countries !! t) as [[c|]|] eqn:E;
    cbn [default from_option id snd fst].
  - split; [intros country _; reflexivity|].
    split; [intros H; discriminate H|].
    destruct c as [|a c]; cbn [Py.truthy_str].
    + split; [intros _; right; right; left; reflexivity | reflexivity].
    + split.
      * intros H. right. right. right. congruence.
      * intros [H | [H | [H | H]]]; try discriminate H.
        congruence.
  - split; [intros country _; reflexivity|].
    split; [intros H; discriminate H|].
    split; [intros _; right; left; reflexivity | reflexivity].
  - split; [intros country H; discriminate H|].
    split; [intros _; split; reflexivity|].
    split; [intros _; left; reflexivity | reflexivity].
Qed.

End CountryLookup.

Lemma get_region_for_ticker_fetched_witness :
  In "RY.TO"%string [ "7203.T"; "RY.TO"; "AAPL" ]%string /\
  get_region_for_ticker
    (Some (CountryFetcher.get_multiple_ticker_countries Scenario.info_country
             [ "7203.T"; "RY.TO"; "AAPL" ]%string)) "RY.TO"
  = "その他"%string.
Proof.
  assert (Hin : In "RY.TO"%string [ "7203.T"; "RY.TO"; "AAPL" ]%string)
    by (right; left; reflexivity).
  split; [exact Hin|].
  apply (get_region_for_ticker_fetched Scenario.info_country
           [ "7203.T"; "RY.TO"; "AAPL" ]%string "RY.TO" Hin).
  reflexivity.
Defined.

Lemma get_multiple_ticker_countries_lookup_witness :
  CountryFetcher.get_multiple_ticker_countries Scenario.info_country
    [ "7203.T"; "RY.TO"; "SAP.DE" ]%string !! "SAP.DE"%string = Some None /\
  CountryFetcher.get_multiple_ticker_countries Scenario.info_country
    [ "7203.T"; "RY.TO"; "SAP.DE" ]%string !! "AAPL"%string = None.
Proof.
  pose proof (get_multiple_ticker_countries_lookup Scenario.info_country
                [ "7203.T"; "RY.TO"; "SAP.DE" ]%string "SAP.DE") as (H & _).
  pose proof (get_multiple_ticker_countries_lookup Scenario.info_country
                [ "7203.T"; "RY.TO"; "SAP.DE" ]%string "AAPL") as (_ & G & _).
  split.
  - rewrite H; [reflexivity|]. right. right. left. reflexivity.
  - apply G. intros Hin.
    repeat (destruct Hin as [Hin | Hin]; [discriminate Hin|]). destruct Hin.
Defined.

Lemma get_country_info_region_witness :
  Scenario.failed_countries !! "AAPL"%string = None /\
  App.get_country_info Scenario.failed_countries "AAPL"
    = ("取得失敗"%string, "その他"%string) /\
  get_region_for_ticker (Some Scenario.failed_countries) "AAPL"
    = "米国"%string.
Proof.
  assert (E : Scenario.failed_countries !! "AAPL"%string = None)
    by (vm_compute; reflexivity).
  destruct (get_country_info_region Scenario.failed_countries "AAPL")
    as (_ & H & _).
  destruct (H E) as [H1 H2].
  split; [exact E|]. split; [exact H1|]. rewrite H2. reflexivity.
Defined.

(** * Properties of the performance metrics *)

Section PerformanceMetrics.

Local Open Scope Q_scope.

Local Abbreviation pct_column := (map (fun r => pnl_percentage (data r))).
Local Abbreviation value_column :=
  (map (fun r => current_value_jpy (data r))).

Lemma mul_map {A} (f g : A -> Q) (l : list A) :
  Pd.mul (map f l) (map g l) = map (fun a => f a * g a) l.
Proof.
  unfold Pd.mul. induction l as [|a l IH]; [reflexivity|].
  cbn [map combine fst snd]. f_equal. exact IH.
Qed.

Lemma equal_weights_map {A} (l : list A) :
  Pd.equal_weights (length l)
  = map (fun _ => 1 / inject_Z (Z.of_nat (length l))) l.
Proof.
  unfold Pd.equal_weights.
  generalize (1 / inject_Z (Z.of_nat (length l))). intros c.
  induction l as [|a l IH]; [reflexivity|].
  cbn [length repeat map]. f_equal. exact IH.
Qed.

(** The metrics of a table with rows, field by field; the weights are one
    weight per row. *)
Lemma calculate_performance_metrics_fields (r : PnlRow) (rs : list PnlRow)
    (rate : Q) :
  let rows := r :: rs in
  let total := Pd.sum (value_column rows) in
  let weight (x : PnlRow) :=
    if Py.gt total 0 then current_value_jpy (data x) / total
    else 1 / inject_Z (Z.of_nat (length rows)) in
  exists metrics,
    calculate_performance_metrics (Pd.Frame rows) rate = Metrics metrics /\
    weighted_return metrics
      = Pd.sum (map (fun x => pnl_percentage (data x) * weight x) rows) /\
    returns_std metrics = Pd.std (pct_column rows) /\
    sharpe_ratio metrics
      = (if Pd.root_positive (Pd.std (pct_column rows))
         then Pd.div_root (weighted_return metrics - rate)
                (Pd.std (pct_column rows))
         else Pd.Rational 0) /\
    max_drawdown metrics = Pd.min (pct_column rows) /\
    risk_free_rate metrics = rate.
Proof.
  cbv zeta.
  unfold calculate_performance_metrics, calculate_performance_metrics_try.
  cbn [Pd.empty Pd.column Py.bind Py.ret Py.try_except Pd.len].
  rewrite Nat2Z.id.
  eexists. split; [reflexivity|].
  cbn [weighted_return returns_std sharpe_ratio max_drawdown risk_free_rate].
  split.
  - destruct (Py.gt (Pd.sum (value_column (r :: rs))) 0).
    + rewrite map_map, mul_map. reflexivity.
    + rewrite equal_weights_map, mul_map. reflexivity.
  - repeat (split; [reflexivity|]). reflexivity.
Qed.

(** X21. The metrics are [{}] exactly for an empty table. *)
Theorem calculate_performance_metrics_empty (pnl_df : Pd.DataFrame PnlRow)
    (rate : Q) :
  calculate_performance_metrics pnl_df rate = EmptyMetrics <->
  Pd.empty pnl_df = true.
Proof.
  destruct pnl_df as [|[|r rs]].
  - split; reflexivity.
  - split; reflexivity.
  - destruct (calculate_performance_metrics_fields r rs rate)
      as (metrics & -> & _).
    split; intros H; discriminate H.
Qed.

(** X23. For a table with one position the standard deviation of the
    returns is [NaN], so that [sharpe_ratio] is [0], whatever the risk-free
    rate; [weighted_return] and [max_drawdown] are the percentage of the
    position, whatever its value. *)
Theorem calculate_performance_metrics_single_position (r : PnlRow)
    (rate : Q) :
  exists metrics,
    calculate_performance_metrics (Pd.Frame [r]) rate = Metrics metrics /\
    returns_std metrics = Pd.RootNaN /\
    sharpe_ratio metrics = Pd.Rational 0 /\
    max_drawdown metrics = Pd.Finite (pnl_percentage (data r)) /\
    weighted_return metrics == pnl_percentage (data r).
Proof.
  destruct (calculate_performance_metrics_fields r [] rate)
    as (metrics & Hm & Hwr & Hstd & Hsharpe & Hdd & _).
  exists metrics. split; [exact Hm|].
  split; [rewrite Hstd; reflexivity|].
  split; [rewrite Hsharpe; reflexivity|].
  split; [rewrite Hdd; reflexivity|].
  rewrite Hwr. cbn [map length]. rewrite !sum_cons.
  change (Pd.sum []) with 0.
  destruct (Py.gt (current_value_jpy (data r) + 0) 0) eqn:G.
  - apply gt_true in G. field. intros Z.
    assert (E : current_value_jpy (data r) + 0 == 0) by (rewrite Z; ring).
    rewrite E in G. discriminate G.
  - change (inject_Z (Z.of_nat 1)) with 1. field.
Qed.

End PerformanceMetrics.

(** * Sample evaluations of the properties *)

Lemma suffix_region_table_witness :
  Py.contains "." "SHOP" = false /\
  suffix_region "SHOP" = "米国"%string /\
  suffix_region ("SHOP" +:+ ".V") = "北米（その他）"%string /\
  suffix_region ("SHOP" +:+ ".TO") = "日本"%string.
Proof.
  assert (H : Py.contains "." "SHOP" = false) by reflexivity.
  destruct (suffix_region_table "SHOP" H)
    as (Hus & _ & _ & _ & _ & _ & _ & _ & _ & Hv & Hto).
  split; [exact H|]. split; [exact Hus|]. split; [exact Hv | exact Hto].
Defined.

Lemma calculate_portfolio_pnl_rows_witness :
  map (fun r => ticker (data r))
    (Pd.records
       (calculate_portfolio_pnl Scenario.mixed_portfolio Scenario.mixed_prices
          Scenario.mixed_rates Scenario.mixed_currencies))
  = [ "7203.T"; "AAPL"; "7203.T"; "RY.TO" ]%string /\
  Pd.empty
    (calculate_portfolio_pnl Scenario.mixed_portfolio Scenario.mixed_prices
       Scenario.mixed_rates Scenario.mixed_currencies) <> true.
Proof.
  destruct (calculate_portfolio_pnl_rows Scenario.mixed_prices
              Scenario.mixed_rates Scenario.mixed_currencies
              Scenario.mixed_portfolio) as (Htickers & _ & _ & Hempty).
  split; [rewrite Htickers; reflexivity|].
  intros H. apply Hempty in H. discriminate H.
Defined.

Lemma calculate_sector_allocation_regions_witness :
  (length
     (Pd.records
        (calculate_sector_allocation (Pd.Frame Scenario.rows)
           Scenario.countries)) <= 6)%nat /\
  exists r,
    In r Scenario.rows /\
    get_region_for_ticker Scenario.countries (ticker (data r))
    = "日本"%string.
Proof.
  destruct (calculate_sector_allocation_regions Scenario.countries
              Scenario.rows) as (_ & _ & _ & Hlen & Hiff).
  split; [exact Hlen|].
  apply (proj1 (Hiff "日本"%string)). vm_compute. left. reflexivity.
Defined.

Lemma calculate_sector_allocation_conservation_witness :
  fold_right Z.add 0%Z
    (map Region.position_count
       (map Region.agg
          (Pd.records
             (calculate_sector_allocation (Pd.Frame Scenario.rows)
                Scenario.countries)))) = 3%Z /\
  forall a,
    In a (map Region.agg
            (Pd.records
               (calculate_sector_allocation (Pd.Frame Scenario.rows)
                  Scenario.countries))) ->
    (1 <= Region.position_count a)%Z.
Proof.
  destruct (calculate_sector_allocation_conservation Scenario.countries
              Scenario.rows) as (_ & _ & _ & Hcount & Hone).
  split; [rewrite Hcount; reflexivity | exact Hone].
Defined.

Lemma classify_region_by_country_tables_witness :
  Py.isascii " canada " = true /\
  CountryFetcher.classify_region_by_country (Some " canada "%string)
  = "北米（その他）"%string /\
  CountryFetcher.classify_region_by_country (Some "Japan"%string)
  <> "北米（その他）"%string.
Proof.
  assert (Hascii : forall s c : string,
             Py.isascii s = true -> Some s = Some c -> Py.isascii c = true).
  { intros s c Hs E. injection E as <-. exact Hs. }
  destruct (classify_region_by_country_tables (Some " canada "%string)
              (fun c => Hascii " canada "%string c eq_refl))
    as (_ & _ & _ & _ & Hcanada).
  destruct (classify_region_by_country_tables (Some "Japan"%string)
              (fun c => Hascii "Japan"%string c eq_refl))
    as (_ & _ & _ & _ & Hjapan).
  split; [reflexivity|]. split.
  - apply Hcanada. exists " canada "%string.
    split; [reflexivity | left; reflexivity].
  - intros H. apply Hjapan in H as (c & E & Hin). injection E as <-.
    destruct Hin as [Hin | []]. vm_compute in Hin. discriminate Hin.
Defined.

Lemma calculate_performance_metrics_empty_witness :
  calculate_performance_metrics
    (calculate_portfolio_pnl [] Scenario.mixed_prices Scenario.mixed_rates
       Scenario.mixed_currencies) (1 # 10) = EmptyMetrics /\
  calculate_performance_metrics (Pd.Frame Scenario.rows) (1 # 10)
  <> EmptyMetrics.
Proof.
  split.
  - apply calculate_performance_metrics_empty. reflexivity.
  - intros H. apply calculate_performance_metrics_empty in H. discriminate H.
Defined.
